(** * Greenville Cash: the encrypted local-storage persistence scheme

    A shallow embedding of [encryption.js], [storage.js], [auth.js] and the
    validation helpers of the main script, with the theorems that settle the
    properties stated for them: the codec ([encryptData], [decryptData]),
    the record store ([saveUserData], [loadUserData], [backupUserData]), the
    session key cache, and the handlers [handleSignup], [handleLogout] and
    [checkRememberMeCookie]. The second half covers the rest of these files:
    [generateRandomPassword], the backup mirror ([configureGithubBackup],
    [restoreFromBackup]), [exportUserData] and [importUserData],
    [handleLogin], [getCurrentUserData], the password strength meter and the
    page guard [checkAuthStatus].

    Conventions of the embedding.
    - A JavaScript string is a [string]: a sequence of code units below 256
      (the Latin-1 range).
    - A CryptoJS [WordArray] is the list of its significant bytes.
    - [localStorage] and [sessionStorage] are finite maps from key strings to
      value strings, without a quota; [getItem] of an absent key is [None]
      (JavaScript [null]).
    - Third-party and built-in primitives that are not part of the
      repository (CryptoJS, [JSON], [fetch], the clock and the random number
      generator) are the operations of the classes [JsonLib] and [CryptoLib]
      and fields of the browser state; what the development assumes of them
      is spelled out in [JsonLaws] and [CryptoLaws].
    - A handler is a function from the state of the browser to a completion
      and a new state. Promise continuations run to completion in program
      order; [console.error] leaves no trace in the state. *)

From Stdlib Require Import ZArith NArith Ascii.
From Stdlib.Strings Require Import Byte.
From stdpp Require Import base option list gmap strings pretty.

Set Warnings "-register-all".

Local Open Scope stdpp_scope.

(** ** JavaScript strings *)

Module JsString.

Definition is_empty (s : string) : bool :=
  match s with EmptyString => true | String _ _ => false end.

Definition code (c : ascii) : N := N_of_ascii c.

(** [s.split(sep)] for a one-character separator. The result is never
    empty: a string without the separator is returned whole. *)
Fixpoint split (sep : ascii) (s : string) : list string :=
  match s with
  | EmptyString => [EmptyString]
  | String c rest =>
      if Ascii.eqb c sep then EmptyString :: split sep rest
      else match split sep rest with
           | [] => [String c EmptyString]
           | part :: parts => String c part :: parts
           end
  end.

(** Number of occurrences of a character. *)
Fixpoint count (c : ascii) (s : string) : nat :=
  match s with
  | EmptyString => 0
  | String d rest => (if Ascii.eqb d c then 1 else 0) + count c rest
  end.

(** [s.startsWith(p)] *)
Definition startsWith (p s : string) : bool := String.prefix p s.

(** [s.substring(from, to)] for [from <= to]. *)
Definition substring (from to : nat) (s : string) : string :=
  String.substring from (to - from) s.

(** White space and line terminators of ECMAScript in the Latin-1 range:
    TAB, LF, VT, FF, CR, SP and NBSP. *)
Definition is_white_space (c : ascii) : bool :=
  let n := code c in
  ((9 <=? n) && (n <=? 13) || (n =? 32) || (n =? 160))%N.

Fixpoint trimStart (s : string) : string :=
  match s with
  | EmptyString => EmptyString
  | String c rest => if is_white_space c then trimStart rest else s
  end.

(** Drops trailing white space; [None] stands for a string that is white
    space only. *)
Fixpoint trimEnd_aux (s : string) : option string :=
  match s with
  | EmptyString => None
  | String c rest =>
      match trimEnd_aux rest with
      | Some rest' => Some (String c rest')
      | None => if is_white_space c then None else Some (String c EmptyString)
      end
  end.

Definition trimEnd (s : string) : string := default EmptyString (trimEnd_aux s).

(** [s.trim()] *)
Definition trim (s : string) : string := trimEnd (trimStart s).

Definition is_lower (c : ascii) : bool := ((97 <=? code c) && (code c <=? 122))%N.
Definition is_upper (c : ascii) : bool := ((65 <=? code c) && (code c <=? 90))%N.
Definition is_digit (c : ascii) : bool := ((48 <=? code c) && (code c <=? 57))%N.

(** Upper-case letters of Latin-1 beyond ASCII: U+00C0..U+00DE without the
    multiplication sign U+00D7. *)
Definition is_upper_latin1 (c : ascii) : bool :=
  ((192 <=? code c) && (code c <=? 222) && negb (code c =? 215))%N.

Definition lower_char (c : ascii) : ascii :=
  if is_upper c || is_upper_latin1 c then ascii_of_N (code c + 32) else c.

Fixpoint map (f : ascii → ascii) (s : string) : string :=
  match s with
  | EmptyString => EmptyString
  | String c rest => String (f c) (map f rest)
  end.

Fixpoint existsb (p : ascii → bool) (s : string) : bool :=
  match s with
  | EmptyString => false
  | String c rest => p c || existsb p rest
  end.

Fixpoint forallb (p : ascii → bool) (s : string) : bool :=
  match s with
  | EmptyString => true
  | String c rest => p c && forallb p rest
  end.

(** [s.toLowerCase()] *)
Definition toLowerCase (s : string) : string := map lower_char s.

End JsString.

(** The string that holds the NUL character, U+0000. *)
Definition NUL : string := String "000" EmptyString.

(** ** Values *)

(** The values that the codec carries: the JSON data model. [JNull] is also
    the [null] that the storage functions return for "not available". *)
Inductive JsValue : Type :=
  | JNull
  | JBool (b : bool)
  | JNum (n : Z)
  | JStr (s : string)
  | JArr (items : list JsValue)
  | JObj (fields : list (string * JsValue)).

(** [typeof v === 'object'] *)
Definition typeof_object (v : JsValue) : bool :=
  match v with
  | JNull | JArr _ | JObj _ => true
  | JBool _ | JNum _ | JStr _ => false
  end.

(** The built-in [JSON] object and number formatting. *)
Class JsonLib := {
  JSON_stringify : JsValue → string;
  (** [None] stands for the [SyntaxError] of [JSON.parse]. *)
  JSON_parse : string → option JsValue;
  Number_toString : Z → string;
}.

(** What is assumed of [JSON]: the empty text is not a JSON text, and the
    literal name [true] denotes the Boolean. *)
Class JsonLaws {json : JsonLib} : Prop := {
  JSON_parse_empty : JSON_parse "" = None;
  JSON_parse_true : JSON_parse "true" = Some (JBool true);
}.

(** A value is JSON-serializable when parsing its serialization gives the
    value back (structural equality after serialization). *)
Definition JSON_serializable {json : JsonLib} (v : JsValue) : Prop :=
  JSON_parse (JSON_stringify v) = Some v.

(** [String(v)]. An array prints its elements separated by commas, with
    nothing for [null]; any other object prints as [[object Object]]. *)
Fixpoint ToString {json : JsonLib} (v : JsValue) : string :=
  match v with
  | JNull => "null"
  | JBool true => "true"
  | JBool false => "false"
  | JNum n => Number_toString n
  | JStr s => s
  | JArr items =>
      String.concat ","
        ((λ item, match item with JNull => "" | _ => ToString item end) <$> items)
  | JObj _ => "[object Object]"
  end.

(** ** Completions *)

(** The outcome of running a piece of code: a value, or a thrown [Error]
    with its message. *)
Inductive Completion (A : Type) : Type :=
  | Normal (value : A)
  | Throw (message : string).
Arguments Normal {A} value.
Arguments Throw {A} message.

(** ** Byte arrays and hexadecimal text *)

Abbreviation WordArray := (list byte).

Module Hex.

Definition digit (n : N) : ascii :=
  match n with
  | 0 => "0" | 1 => "1" | 2 => "2" | 3 => "3" | 4 => "4" | 5 => "5"
  | 6 => "6" | 7 => "7" | 8 => "8" | 9 => "9" | 10 => "a" | 11 => "b"
  | 12 => "c" | 13 => "d" | 14 => "e" | _ => "f"
  end%N%char.

(** [CryptoJS.enc.Hex.stringify]: two lower-case digits per byte, the
    high nibble first. This is also [wordArray.toString()]. *)
Fixpoint stringify (w : WordArray) : string :=
  match w with
  | [] => EmptyString
  | b :: rest =>
      String (digit (Byte.to_N b / 16)) (String (digit (Byte.to_N b mod 16)) (stringify rest))
  end.

Definition value (c : ascii) : option N :=
  let n := JsString.code c in
  if JsString.is_digit c then Some (n - 48)%N
  else if ((97 <=? n) && (n <=? 102))%N then Some (n - 87)%N
  else if ((65 <=? n) && (n <=? 70))%N then Some (n - 55)%N
  else None.

Definition is_hex_digit (c : ascii) : bool := bool_decide (is_Some (value c)).

(** The bytes of a text made of pairs of hexadecimal digits. *)
Fixpoint decode (s : string) : option WordArray :=
  match s with
  | EmptyString => Some []
  | String c1 (String c2 rest) =>
      hi ← value c1; lo ← value c2; b ← Byte.of_N (16 * hi + lo);
      w ← decode rest; Some (b :: w)
  | String _ EmptyString => None
  end.

End Hex.

(** ** CryptoJS *)

(** The source of randomness behind [CryptoJS.lib.WordArray.random]: an
    unbounded supply of bytes, consumed from the front. *)
Definition Entropy : Type := nat → byte.

(** [CryptoJS.lib.WordArray.random(nBytes)] *)
Definition WordArray_random (nBytes : nat) (e : Entropy) : WordArray * Entropy :=
  (e <$> seq 0 nBytes, λ i, e (nBytes + i)).

(** The two key pads that [CryptoJS.algo.HMAC] keeps after [init]. *)
Record HMAC : Type := { _oKey : WordArray; _iKey : WordArray }.

(** The primitives of CryptoJS that the codec calls. *)
Class CryptoLib := {
  (** The hasher that [CryptoJS.PBKDF2] is configured with: its digest
      function and its block size in 32-bit words. *)
  hasher_finalize : WordArray → WordArray;
  hasher_blockSize : nat;
  (** The block iteration of [PBKDF2.compute], which uses the password only
      through the HMAC that was created from it. Arguments: the HMAC, the
      salt, [keySize] in words and [iterations]. *)
  PBKDF2_compute : HMAC → string → nat → N → WordArray;
  (** What [CryptoJS.enc.Hex.parse] returns for a text that is not made of
      pairs of hexadecimal digits. *)
  Hex_parse_malformed : string → WordArray;
  (** The object returned by [CryptoJS.AES.encrypt] and its [toString()]. *)
  CipherParams : Type;
  CipherParams_toString : CipherParams → string;
  (** [CryptoJS.AES.encrypt(message, key, {iv, padding: Pkcs7, mode: CBC})];
      it may draw randomness of its own. *)
  AES_encrypt : string → string → WordArray → Entropy → CipherParams * Entropy;
  (** [CryptoJS.AES.decrypt(ciphertext, key, {iv, padding: Pkcs7, mode: CBC})] *)
  AES_decrypt : string → string → WordArray → WordArray;
  (** [wordArray.toString(CryptoJS.enc.Utf8)]; [None] stands for the
      'Malformed UTF-8 data' error. *)
  Utf8_stringify : WordArray → option string;
}.

(** The characters of the Base64 alphabet, padding included. *)
Definition is_base64_char (c : ascii) : bool :=
  JsString.is_upper c || JsString.is_lower c || JsString.is_digit c
  || Ascii.eqb c "+" || Ascii.eqb c "/" || Ascii.eqb c "=".

(** What is assumed of CryptoJS: a ciphertext prints as non-empty Base64
    text, and decrypting a ciphertext with the key and the initialization
    vector it was made with gives the message back. *)
Class CryptoLaws {crypto : CryptoLib} : Prop := {
  CipherParams_toString_base64 : ∀ c,
    JsString.forallb is_base64_char (CipherParams_toString c) = true;
  CipherParams_toString_nonempty : ∀ c,
    CipherParams_toString c ≠ "";
  AES_decrypt_encrypt : ∀ message key iv e,
    Utf8_stringify
      (AES_decrypt (CipherParams_toString (AES_encrypt message key iv e).1) key iv)
    = Some message;
}.

(** [CryptoJS.enc.Utf8.parse] of a string of Latin-1 code units. *)
Definition Utf8_encode_char (c : ascii) : WordArray :=
  let n := JsString.code c in
  if (n <? 128)%N then [byte_of_ascii c]
  else [default x00 (Byte.of_N (192 + n / 64)); default x00 (Byte.of_N (128 + n mod 64))].

Fixpoint Utf8_parse (s : string) : WordArray :=
  match s with
  | EmptyString => []
  | String c rest => Utf8_encode_char c ++ Utf8_parse rest
  end.

Definition byte_xor (a b : byte) : byte :=
  default x00 (Byte.of_N (N.lxor (Byte.to_N a) (Byte.to_N b))).

Section CryptoJS.
Context {crypto : CryptoLib}.

(** [CryptoJS.enc.Hex.parse] *)
Definition Hex_parse (hexStr : string) : WordArray :=
  match Hex.decode hexStr with
  | Some w => w
  | None => Hex_parse_malformed hexStr
  end.

(** [HMAC.create(hasher, key)], the key schedule of HMAC (RFC 2104, as in
    CryptoJS): a string key is read as UTF-8, a key longer than a block is
    replaced by its digest, the key is filled up with zero bytes to a whole
    block, and the block is combined with the two pad constants. *)
Definition HMAC_create (key : string) : HMAC :=
  let key := Utf8_parse key in
  let hasherBlockSizeBytes := hasher_blockSize * 4 in
  let key :=
    if bool_decide (hasherBlockSizeBytes < length key) then hasher_finalize key else key in
  let block := key ++ replicate (hasherBlockSizeBytes - length key) x00 in
  {| _oKey := byte_xor x5c <$> block; _iKey := byte_xor x36 <$> block |}.

(** [CryptoJS.PBKDF2(password, salt, {keySize, iterations})] *)
Definition PBKDF2 (password salt : string) (keySize : nat) (iterations : N) : WordArray :=
  PBKDF2_compute (HMAC_create password) salt keySize iterations.

End CryptoJS.

(** ** The browser *)

(** A request handed to [fetch]: the resource and the options the program
    sets. *)
Record Request : Type := {
  url : string;
  method : string;
  authorization : string;
  content_type : option string;
  body : option string;
}.

(** How a call of [fetch] ends for the program. [gist_id] is the text that
    [localStorage.setItem] stores for [(await response.json()).id]; it is
    [None] when [response.json()] rejects or reading the property throws. *)
Inductive FetchOutcome : Type :=
  | NetworkError
  | Response (status : nat) (gist_id : option string).

(** [response.ok]: the status is in the range 200-299. *)
Definition response_ok (status : nat) : bool :=
  bool_decide (200 ≤ status ≤ 299).

(** Everything outside the program that the program reads or writes. *)
Record Browser : Type := {
  localStorage : gmap string string;
  sessionStorage : gmap string string;
  (** The cookie jar of the document, by cookie name. *)
  cookies : list (string * string);
  (** The calls of [showNotification], the latest first: message and type. *)
  notifications : list (string * string);
  (** The page that a handler has scheduled a redirect to. *)
  location : option string;
  entropy : Entropy;
  (** [new Date().toISOString()] *)
  clock : string;
  (** The remote end of [fetch]. *)
  network : Request → FetchOutcome;
}.

Definition with_localStorage (f : gmap string string → gmap string string) (w : Browser)
    : Browser :=
  {| localStorage := f (localStorage w); sessionStorage := sessionStorage w;
     cookies := cookies w; notifications := notifications w; location := location w;
     entropy := entropy w; clock := clock w; network := network w |}.

Definition with_sessionStorage (f : gmap string string → gmap string string) (w : Browser)
    : Browser :=
  {| localStorage := localStorage w; sessionStorage := f (sessionStorage w);
     cookies := cookies w; notifications := notifications w; location := location w;
     entropy := entropy w; clock := clock w; network := network w |}.

Definition with_cookies (f : list (string * string) → list (string * string)) (w : Browser)
    : Browser :=
  {| localStorage := localStorage w; sessionStorage := sessionStorage w;
     cookies := f (cookies w); notifications := notifications w; location := location w;
     entropy := entropy w; clock := clock w; network := network w |}.

Definition with_notifications (f : list (string * string) → list (string * string))
    (w : Browser) : Browser :=
  {| localStorage := localStorage w; sessionStorage := sessionStorage w;
     cookies := cookies w; notifications := f (notifications w); location := location w;
     entropy := entropy w; clock := clock w; network := network w |}.

Definition with_location (l : option string) (w : Browser) : Browser :=
  {| localStorage := localStorage w; sessionStorage := sessionStorage w;
     cookies := cookies w; notifications := notifications w; location := l;
     entropy := entropy w; clock := clock w; network := network w |}.

Definition with_entropy (e : Entropy) (w : Browser) : Browser :=
  {| localStorage := localStorage w; sessionStorage := sessionStorage w;
     cookies := cookies w; notifications := notifications w; location := location w;
     entropy := e; clock := clock w; network := network w |}.

Definition with_network (remote : Request → FetchOutcome) (w : Browser) : Browser :=
  {| localStorage := localStorage w; sessionStorage := sessionStorage w;
     cookies := cookies w; notifications := notifications w; location := location w;
     entropy := entropy w; clock := clock w; network := remote |}.

(** A value in a condition: [null] and the empty string are falsy. *)
Definition truthy (v : option string) : bool :=
  match v with
  | Some s => negb (JsString.is_empty s)
  | None => false
  end.

(** ** Code that runs in the browser *)

(** A computation reads and updates the browser and ends with a value or
    with a thrown error. *)
Definition JS (A : Type) : Type := Browser → Completion A * Browser.

Definition ret {A} (a : A) : JS A := λ w, (Normal a, w).

Definition throw {A} (message : string) : JS A := λ w, (Throw message, w).

Definition bind {A B} (m : JS A) (k : A → JS B) : JS B := λ w,
  match m w with
  | (Normal a, w') => k a w'
  | (Throw message, w') => (Throw message, w')
  end.

(** [try { m } catch (error) { handler(error) }] *)
Definition try_catch {A} (m : JS A) (handler : string → JS A) : JS A := λ w,
  match m w with
  | (Normal a, w') => (Normal a, w')
  | (Throw message, w') => handler message w'
  end.

(** A statement that only updates the browser. *)
Definition effect (f : Browser → Browser) : JS unit := λ w, (Normal tt, f w).

(** A read of the browser. *)
Definition read {A} (f : Browser → A) : JS A := λ w, (Normal (f w), w).

Declare Scope js_scope.
Delimit Scope js_scope with js.
Notation "x <- m ;; k" := (bind m (λ x, k))
  (at level 100, m at next level, right associativity) : js_scope.
Notation "m ;; k" := (bind m (λ _, k))
  (at level 100, right associativity) : js_scope.

(** Runs [truthy] on a value that is truthy and [falsy] otherwise: the shape
    of [if (!v) { falsy }] followed by code that uses [v]. *)
Definition if_falsy {A} (v : option string) (falsy : A) (truthy : string → A) : A :=
  match v with
  | Some s => if JsString.is_empty s then falsy else truthy s
  | None => falsy
  end.

Definition lift_completion {A} (c : Completion A) : JS A := λ w, (c, w).

(** A computation that only draws randomness. *)
Definition lift_entropy {A} (f : Entropy → A * Entropy) : JS A := λ w,
  let '(a, e) := f (entropy w) in (Normal a, with_entropy e w).

(** [await fetch(resource, options)]: a network failure rejects. *)
Definition fetch (request : Request) : JS (nat * option string) := λ w,
  match network w request with
  | NetworkError => (Throw "Failed to fetch", w)
  | Response status gist_id => (Normal (status, gist_id), w)
  end.

Definition localStorage_getItem (key : string) : JS (option string) :=
  read (λ w, localStorage w !! key).

Definition localStorage_setItem (key value : string) : JS unit :=
  effect (with_localStorage <[key := value]>).

Definition localStorage_removeItem (key : string) : JS unit :=
  effect (with_localStorage (delete key)).

(** ** encryption.js *)

Section Encryption.
Context {json : JsonLib} {crypto : CryptoLib}.

Definition default_salt : string := "greenville_cash_salt".

(** [deriveKeyFromPassword(password, salt = 'greenville_cash_salt')]:
    PBKDF2 with a 256-bit key (8 words) and 10000 iterations, printed in
    hexadecimal by [key.toString()]. *)
Definition deriveKeyFromPassword (password : string) (salt : option string) : string :=
  let key := PBKDF2 password (default default_salt salt) (256 / 32) 10000 in
  Hex.stringify key.

(** [typeof data === 'object' ? JSON.stringify(data) : String(data)] *)
Definition dataStr_of (data : JsValue) : string :=
  if typeof_object data then JSON_stringify data else ToString data.

(** [encryptData(data, password)]. None of the primitives it calls throws
    in this embedding, so the [catch] clause, which rethrows as 'Failed to
    encrypt data', has nothing to handle and the result is the blob. *)
Definition encryptData (data : JsValue) (password : string) (e : Entropy)
    : string * Entropy :=
  let dataStr := dataStr_of data in
  let key := deriveKeyFromPassword password None in
  let '(iv, e) := WordArray_random (128 / 8) e in
  let '(encrypted, e) := AES_encrypt dataStr key iv e in
  let result := Hex.stringify iv +:+ ":" +:+ CipherParams_toString encrypted in
  (result, e).

(** The [try] block of [decryptData]. *)
Definition decryptData_try (encryptedData password : string) : Completion JsValue :=
  let parts := JsString.split ":" encryptedData in
  if negb (length parts =? 2) then Throw "Invalid encrypted data format"
  else
    let iv := Hex_parse (nth 0 parts "") in
    let ciphertext := nth 1 parts "" in
    let key := deriveKeyFromPassword password None in
    let decrypted := AES_decrypt ciphertext key iv in
    match Utf8_stringify decrypted with
    | None => Throw "Malformed UTF-8 data"
    | Some decryptedStr =>
        if JsString.is_empty decryptedStr
        then Throw "Decryption failed - wrong password or corrupted data"
        else
          match JSON_parse decryptedStr with
          | Some value => Normal value
          | None => Normal (JStr decryptedStr)
          end
    end.

(** [decryptData(encryptedData, password)]: whatever the [try] block
    throws is logged and rethrown as one error. *)
Definition decryptData (encryptedData password : string) : Completion JsValue :=
  match decryptData_try encryptedData password with
  | Normal value => Normal value
  | Throw _ => Throw "Failed to decrypt data"
  end.

(** *** Notions used in the statements about the codec *)

(** The initialization vector and the ciphertext that [encryptData]
    produces. *)
Definition encryptData_iv (e : Entropy) : WordArray := (WordArray_random 16 e).1.

Definition encryptData_cipher (data : JsValue) (password : string) (e : Entropy)
    : CipherParams :=
  (AES_encrypt (dataStr_of data) (deriveKeyFromPassword password None)
     (encryptData_iv e) (WordArray_random 16 e).2).1.

(** The text that [decryptData] obtains from the two parts of a blob,
    before it looks at the text. *)
Definition decrypted_text (iv ciphertext password : string) : option string :=
  Utf8_stringify
    (AES_decrypt ciphertext (deriveKeyFromPassword password None) (Hex_parse iv)).

(** What [decryptData] makes of the decrypted text. *)
Definition decryptData_result (text : option string) : Completion JsValue :=
  match text with
  | None => Throw "Failed to decrypt data"
  | Some t =>
      if JsString.is_empty t then Throw "Failed to decrypt data"
      else Normal (default (JStr t) (JSON_parse t))
  end.

(** [storeSessionKey(key)] *)
Definition storeSessionKey (key : string) : JS unit :=
  effect (with_sessionStorage <["gcash_session_key" := key]>).

(** [getSessionKey()] *)
Definition getSessionKey : JS (option string) :=
  read (λ w, sessionStorage w !! "gcash_session_key").

(** [clearSessionKey()] *)
Definition clearSessionKey : JS unit :=
  effect (with_sessionStorage (delete "gcash_session_key")).

End Encryption.

(** ** storage.js *)

Section Storage.
Context {json : JsonLib} {crypto : CryptoLib}.
Local Open Scope js_scope.

(** The replacement [/[^a-z0-9]/gi -> '_'] on one character. *)
Definition safe_char (c : ascii) : ascii :=
  if JsString.is_lower c || JsString.is_upper c || JsString.is_digit c then c else "_"%char.

(** Between two states of the browser only the two bookkeeping keys of the
    backup in [localStorage] may differ, and [sessionStorage] does not. *)
Definition backup_frame (w w' : Browser) : Prop :=
  (∀ key, key ≠ "gcash_backup_gist_id" → key ≠ "gcash_last_backup" →
          localStorage w' !! key = localStorage w !! key)
  ∧ sessionStorage w' = sessionStorage w.

(** [backupUserData(encryptedData)] *)
Definition backupUserData (encryptedData : string) : JS bool :=
  try_catch
    (backupEnabled <- localStorage_getItem "gcash_backup_enabled";;
     if negb (bool_decide (backupEnabled = Some "true")) then ret false
     else
       githubToken <- localStorage_getItem "gcash_github_token";;
       if_falsy githubToken (ret false) (λ githubToken,
         currentUserEmail <- localStorage_getItem "gcash_current_user";;
         match currentUserEmail with
         | None => throw "Cannot read properties of null (reading 'replace')"
         | Some currentUserEmail =>
             let safeFilename :=
               JsString.toLowerCase (JsString.map safe_char currentUserEmail) in
             gistId <- localStorage_getItem "gcash_backup_gist_id";;
             let gistData :=
               JObj [("description", JStr "Greenville Cash Encrypted Backup");
                     ("public", JBool false);
                     ("files",
                      JObj [(safeFilename +:+ ".encrypted",
                             JObj [("content", JStr encryptedData)])])] in
             response <-
               if_falsy gistId
                 (response <-
                    fetch {| url := "https://api.github.com/gists";
                             method := "POST";
                             authorization := "token " +:+ githubToken;
                             content_type := Some "application/json";
                             body := Some (JSON_stringify gistData) |};;
                  (if response_ok response.1
                   then match response.2 with
                        | Some id => localStorage_setItem "gcash_backup_gist_id" id
                        | None => throw "Unexpected end of JSON input"
                        end
                   else ret tt);;
                  ret response)
                 (λ gistId,
                    fetch {| url := "https://api.github.com/gists/" +:+ gistId;
                             method := "PATCH";
                             authorization := "token " +:+ githubToken;
                             content_type := Some "application/json";
                             body := Some (JSON_stringify gistData) |});;
             if negb (response_ok response.1)
             then throw ("GitHub API error: " +:+ pretty response.1)
             else
               now <- read clock;;
               localStorage_setItem "gcash_last_backup" now;;
               ret true
         end))
    (λ _, ret false).

(** [saveUserData(userData)] *)
Definition saveUserData (userData : JsValue) : JS bool :=
  try_catch
    (currentUserEmail <- localStorage_getItem "gcash_current_user";;
     if_falsy currentUserEmail (throw "No user is currently logged in") (λ currentUserEmail,
       sessionKey <- getSessionKey;;
       if_falsy sessionKey (throw "No session key available") (λ sessionKey,
         encryptedData <- lift_entropy (encryptData userData sessionKey);;
         localStorage_setItem ("gcash_user_" +:+ currentUserEmail) encryptedData;;
         backupUserData encryptedData;;
         ret true)))
    (λ _, ret false).

(** [loadUserData()]; the result [JNull] is JavaScript's [null]. *)
Definition loadUserData : JS JsValue :=
  try_catch
    (currentUserEmail <- localStorage_getItem "gcash_current_user";;
     if_falsy currentUserEmail (ret JNull) (λ currentUserEmail,
       encryptedData <- localStorage_getItem ("gcash_user_" +:+ currentUserEmail);;
       if_falsy encryptedData (ret JNull) (λ encryptedData,
         sessionKey <- getSessionKey;;
         if_falsy sessionKey (throw "No session key available") (λ sessionKey,
           userData <- lift_completion (decryptData encryptedData sessionKey);;
           ret userData))))
    (λ _, ret JNull).

End Storage.

(** ** Validation helpers of the main script *)

(** A character of the class [[^\s@]]. *)
Definition is_email_char (c : ascii) : bool :=
  negb (JsString.is_white_space c) && negb (Ascii.eqb c "@").

(** The three parts of [/^[^\s@]+@[^\s@]+\.[^\s@]+$/], from the last one:
    each matcher takes one character of its class and then either goes on
    with the rest of the pattern or takes more characters. *)
Definition match_email_tld (s : string) : bool :=
  negb (JsString.is_empty s) && JsString.forallb is_email_char s.

Fixpoint match_email_domain (s : string) : bool :=
  match s with
  | EmptyString => false
  | String c rest =>
      is_email_char c
      && ((match rest with
           | String "." tld => match_email_tld tld
           | _ => false
           end)
          || match_email_domain rest)
  end.

Fixpoint match_email (s : string) : bool :=
  match s with
  | EmptyString => false
  | String c rest =>
      is_email_char c
      && ((match rest with
           | String "@" domain => match_email_domain domain
           | _ => false
           end)
          || match_email rest)
  end.

(** [isValidEmail(email)] *)
Definition isValidEmail (email : string) : bool := match_email email.

Record PasswordStrength : Type := {
  isValid : bool;
  score : nat;
  feedback : string;
}.

(** [validatePasswordStrength(password)] *)
Definition validatePasswordStrength (password : string) : PasswordStrength :=
  if bool_decide (String.length password < 8)
  then {| isValid := false; score := 0;
          feedback := "Password should be at least 8 characters long" |}
  else
    let score := 0 in
    let score := if JsString.existsb JsString.is_lower password then S score else score in
    let score := if JsString.existsb JsString.is_upper password then S score else score in
    let score := if JsString.existsb JsString.is_digit password then S score else score in
    let score :=
      if JsString.existsb
           (λ c, negb (JsString.is_upper c || JsString.is_lower c || JsString.is_digit c))
           password
      then S score else score in
    match score with
    | 0 | 1 => {| isValid := false; score := score; feedback := "Weak password" |}
    | 2 => {| isValid := true; score := score; feedback := "Fair password" |}
    | 3 => {| isValid := true; score := score; feedback := "Good password" |}
    | 4 => {| isValid := true; score := score; feedback := "Strong password" |}
    | _ => {| isValid := false; score := score; feedback := "" |}
    end.

(** [showNotification(message, type)]: the notification is recorded. *)
Definition showNotification (message type : string) : JS unit :=
  effect (with_notifications (cons (message, type))).

(** [setTimeout(() => { window.location.href = page; }, delay)] *)
Definition redirect_later (page : string) : JS unit :=
  effect (with_location (Some page)).

(** ** Cookies *)

(** Reading [document.cookie]: the pairs [name=value] of the jar, separated
    by a semicolon and a space. *)
Definition document_cookie (w : Browser) : string :=
  String.concat "; " ((λ c : string * string, c.1 +:+ "=" +:+ c.2) <$> cookies w).

(** Assigning [name=; expires=<a date in the past>; path=/] to
    [document.cookie]: the cookie of that name leaves the jar. *)
Definition document_cookie_expire (name : string) : JS unit :=
  effect (with_cookies (filter (λ c : string * string, c.1 ≠ name))).

(** ** auth.js *)

(** The fields of the signup form as the handler reads them. *)
Record SignupForm : Type := {
  form_fullname : string;
  form_email : string;
  form_password : string;
  form_confirm_password : string;
  form_terms : bool;
}.

(** The checks that [handleSignup] makes on the form before it looks at the
    store: full name, email, password strength, confirmation and terms. *)
Definition signup_form_valid (form : SignupForm) : bool :=
  negb (JsString.is_empty (form_fullname form)
        || bool_decide (String.length (JsString.trim (form_fullname form)) < 2))
  && isValidEmail (form_email form)
  && isValid (validatePasswordStrength (form_password form))
  && String.eqb (form_password form) (form_confirm_password form)
  && form_terms form.

Section Auth.
Context {json : JsonLib} {crypto : CryptoLib}.
Local Open Scope js_scope.

(** The user data object that [handleSignup] creates; [createdAt] is
    [new Date().toISOString()]. *)
Definition handleSignup_userData (fullname email createdAt : string) : JsValue :=
  JObj [("fullname", JStr fullname);
        ("email", JStr (JsString.toLowerCase email));
        ("createdAt", JStr createdAt);
        ("accounts", JArr []);
        ("transactions", JArr []);
        ("budgets", JArr []);
        ("settings",
         JObj [("currency", JStr "USD");
               ("theme", JStr "light");
               ("notifications", JBool true)])].

(** [handleSignup()] *)
Definition handleSignup (form : SignupForm) : JS unit :=
  let fullname := form_fullname form in
  let email := form_email form in
  let password := form_password form in
  let confirmPassword := form_confirm_password form in
  let termsAccepted := form_terms form in
  if JsString.is_empty fullname
     || bool_decide (String.length (JsString.trim fullname) < 2)
  then showNotification "Please enter your full name" "error"
  else if negb (isValidEmail email)
  then showNotification "Please enter a valid email address" "error"
  else
    let passwordStrength := validatePasswordStrength password in
    if negb (isValid passwordStrength)
    then showNotification (feedback passwordStrength) "error"
    else if negb (String.eqb password confirmPassword)
    then showNotification "Passwords do not match" "error"
    else if negb termsAccepted
    then showNotification "You must accept the Terms and Conditions" "error"
    else
      registered <- localStorage_getItem ("gcash_user_" +:+ JsString.toLowerCase email);;
      if truthy registered
      then showNotification "This email is already registered" "error"
      else
        createdAt <- read clock;;
        let userData := handleSignup_userData fullname email createdAt in
        encryptedUserData <- lift_entropy (encryptData userData password);;
        localStorage_setItem ("gcash_user_" +:+ JsString.toLowerCase email) encryptedUserData;;
        localStorage_setItem "gcash_logged_in" "true";;
        localStorage_setItem "gcash_current_user" (JsString.toLowerCase email);;
        showNotification "Account created successfully! Redirecting..." "success";;
        redirect_later "dashboard.html".

(** [handleLogout()] *)
Definition handleLogout : JS unit :=
  localStorage_removeItem "gcash_logged_in";;
  localStorage_removeItem "gcash_current_user";;
  document_cookie_expire "gcash_remember";;
  showNotification "You have been logged out successfully" "info";;
  redirect_later "index.html".

(** The loop of [checkRememberMeCookie] over the parts of the cookie
    text. *)
Fixpoint checkRememberMeCookie_loop (cookies : list string) : JS bool :=
  match cookies with
  | [] => ret false
  | c :: rest =>
      let cookie := JsString.trim c in
      if JsString.startsWith "gcash_remember=" cookie
      then
        let email :=
          JsString.substring (String.length "gcash_remember=") (String.length cookie) cookie in
        found <-
          (if JsString.is_empty email then ret false
           else
             stored <- localStorage_getItem ("gcash_user_" +:+ email);;
             ret (truthy stored));;
        if found : bool
        then
          localStorage_setItem "gcash_logged_in" "true";;
          localStorage_setItem "gcash_current_user" email;;
          ret true
        else checkRememberMeCookie_loop rest
      else checkRememberMeCookie_loop rest
  end.

(** [checkRememberMeCookie()] *)
Definition checkRememberMeCookie : JS bool :=
  cookie <- read document_cookie;;
  checkRememberMeCookie_loop (JsString.split ";" cookie).

End Auth.

(** ** A mock of the libraries

    Small executable stand-ins for [JSON] and CryptoJS, used to evaluate the
    model on concrete inputs: a JSON printer and parser for texts without
    white space and escapes, and a cipher that combines every byte of the
    message with a check byte of the key and the initialization vector. *)

Module Mock.

Definition quote : ascii := "034"%char.
Definition backslash : ascii := "092"%char.

Definition print_string (s : string) : string :=
  String quote (s +:+ String quote EmptyString).

Fixpoint print (v : JsValue) : string :=
  match v with
  | JNull => "null"
  | JBool true => "true"
  | JBool false => "false"
  | JNum n => pretty n
  | JStr s => print_string s
  | JArr items => "[" +:+ String.concat "," (print <$> items) +:+ "]"
  | JObj fields =>
      "{" +:+ String.concat ","
                ((λ f : string * JsValue, print_string f.1 +:+ ":" +:+ print f.2) <$> fields)
      +:+ "}"
  end.

Fixpoint parse_digits (acc : N) (s : string) : N * string :=
  match s with
  | EmptyString => (acc, s)
  | String c rest =>
      if JsString.is_digit c
      then parse_digits (acc * 10 + (JsString.code c - 48))%N rest
      else (acc, s)
  end.

(** The characters up to the closing quote. *)
Fixpoint parse_string_body (s : string) : option (string * string) :=
  match s with
  | EmptyString => None
  | String c rest =>
      if Ascii.eqb c quote then Some (EmptyString, rest)
      else if Ascii.eqb c backslash then None
      else '(str, rest') ← parse_string_body rest; Some (String c str, rest')
  end.

(** Items separated by commas up to the closing bracket. *)
Fixpoint parse_list {A} (item : string → option (A * string)) (close : ascii)
    (fuel : nat) (s : string) : option (list A * string) :=
  match fuel with
  | 0 => None
  | S fuel =>
      '(x, rest) ← item s;
      match rest with
      | EmptyString => None
      | String c rest' =>
          if Ascii.eqb c "," then
            '(xs, rest'') ← parse_list item close fuel rest'; Some (x :: xs, rest'')
          else if Ascii.eqb c close then Some ([x], rest')
          else None
      end
  end.

Definition parse_field (value : string → option (JsValue * string)) (s : string)
    : option ((string * JsValue) * string) :=
  match s with
  | String c rest =>
      if Ascii.eqb c quote then
        '(key, rest') ← parse_string_body rest;
        match rest' with
        | String ":" rest'' => '(v, rest''') ← value rest''; Some ((key, v), rest''')
        | _ => None
        end
      else None
  | EmptyString => None
  end.

Definition drop_chars (n : nat) (s : string) : string :=
  String.substring n (String.length s - n) s.

Fixpoint parse_value (fuel : nat) (s : string) : option (JsValue * string) :=
  match fuel with
  | 0 => None
  | S fuel =>
      match s with
      | EmptyString => None
      | String c rest =>
          if Ascii.eqb c quote then
            '(str, rest') ← parse_string_body rest; Some (JStr str, rest')
          else if Ascii.eqb c "[" then
            match rest with
            | String "]" rest' => Some (JArr [], rest')
            | _ => '(items, rest') ← parse_list (parse_value fuel) "]" fuel rest;
                   Some (JArr items, rest')
            end
          else if Ascii.eqb c "{" then
            match rest with
            | String "}" rest' => Some (JObj [], rest')
            | _ => '(fields, rest') ←
                     parse_list (parse_field (parse_value fuel)) "}" fuel rest;
                   Some (JObj fields, rest')
            end
          else if Ascii.eqb c "-" then
            match rest with
            | String d _ =>
                if JsString.is_digit d
                then let '(n, rest') := parse_digits 0 rest in Some (JNum (- Z.of_N n), rest')
                else None
            | EmptyString => None
            end
          else if JsString.is_digit c then
            let '(n, rest') := parse_digits 0 s in Some (JNum (Z.of_N n), rest')
          else if String.prefix "null" s then Some (JNull, drop_chars 4 s)
          else if String.prefix "true" s then Some (JBool true, drop_chars 4 s)
          else if String.prefix "false" s then Some (JBool false, drop_chars 5 s)
          else None
      end
  end.

Definition parse (s : string) : option JsValue :=
  match parse_value (S (String.length s)) s with
  | Some (v, EmptyString) => Some v
  | _ => None
  end.

#[export] Instance json : JsonLib := {|
  JSON_stringify := print;
  JSON_parse := parse;
  Number_toString := pretty;
|}.

(** UTF-8 text of code points below 256 back to a string. *)
Fixpoint utf8_decode (w : WordArray) : option string :=
  match w with
  | [] => Some EmptyString
  | b :: rest =>
      let n := Byte.to_N b in
      if (n <? 128)%N then s ← utf8_decode rest; Some (String (ascii_of_byte b) s)
      else if ((n =? 194) || (n =? 195))%N then
        match rest with
        | b' :: rest' =>
            let n' := Byte.to_N b' in
            if ((128 <=? n') && (n' <? 192))%N
            then s ← utf8_decode rest';
                 Some (String (ascii_of_N ((n - 192) * 64 + (n' - 128))) s)
            else None
        | [] => None
        end
      else None
  end.

(** The check byte of a key and an initialization vector. *)
Definition checksum (w : WordArray) : N :=
  foldr (λ b sum, (Byte.to_N b + 3 * sum) mod 256)%N 0%N w.

Definition check_byte (key : string) (iv : WordArray) : byte :=
  default x00 (Byte.of_N (checksum (Utf8_parse key ++ iv))).

(** A ciphertext prints as the word [Mock] and its bytes in hexadecimal. *)
Definition cipher_text (c : WordArray) : string := "Mock" +:+ Hex.stringify c.

Definition cipher_bytes (ciphertext : string) : option WordArray :=
  match ciphertext with
  | String "M" (String "o" (String "c" (String "k" hex))) => Hex.decode hex
  | _ => None
  end.

Definition encrypt (message key : string) (iv : WordArray) (e : Entropy)
    : WordArray * Entropy :=
  (byte_xor (check_byte key iv) <$> Utf8_parse message, e).

Definition decrypt (ciphertext key : string) (iv : WordArray) : WordArray :=
  match cipher_bytes ciphertext with
  | Some c => byte_xor (check_byte key iv) <$> c
  | None => []
  end.

#[export] Instance crypto : CryptoLib := {|
  hasher_finalize w := take 20 w;
  hasher_blockSize := 16;
  PBKDF2_compute hmac salt keySize iterations :=
    take (keySize * 4) (zip_with byte_xor (_iKey hmac) (Utf8_parse salt ++ _oKey hmac));
  Hex_parse_malformed _ := [];
  CipherParams := WordArray;
  CipherParams_toString := cipher_text;
  AES_encrypt := encrypt;
  AES_decrypt := decrypt;
  Utf8_stringify := utf8_decode;
|}.

End Mock.

(** ** The scenario

    The inputs of the signup scenario and the states of the browser that it
    runs through, evaluated with the mock of the libraries. *)

Module Scenario.
#[local] Existing Instances Mock.json Mock.crypto.

(** A remote end that cannot be reached. *)
Definition no_network : Request → FetchOutcome := λ _, NetworkError.

(** A browser with nothing stored, at a given instant. *)
Definition fresh_browser : Browser := {|
  localStorage := ∅;
  sessionStorage := ∅;
  cookies := [];
  notifications := [];
  location := None;
  entropy := λ i, default x00 (Byte.of_N (N.of_nat (7 * i + 3) mod 256));
  clock := "2025-04-20T10:00:00.000Z";
  network := no_network;
|}.

(** The signup of the scenario. *)
Definition signup_form : SignupForm := {|
  form_fullname := "A B";
  form_email := "a@b.com";
  form_password := "Str0ng!Pass";
  form_confirm_password := "Str0ng!Pass";
  form_terms := true;
|}.

(** The record that this signup creates. *)
Definition signup_record : JsValue :=
  handleSignup_userData "A B" "a@b.com" (clock fresh_browser).

(** The blob that holds this record, encrypted under the password of the
    scenario. *)
Definition signup_blob : string :=
  (encryptData signup_record "Str0ng!Pass" (entropy fresh_browser)).1.

(** The browser after the signup of the scenario. *)
Definition after_signup : Browser := (handleSignup signup_form fresh_browser).2.

(** The same with the password cached as the session key. *)
Definition with_cached_key : Browser := (storeSessionKey "Str0ng!Pass" after_signup).2.

(** The same with the backup switched on. *)
Definition backup_configured : Browser :=
  with_localStorage
    (λ m, <["gcash_github_token" := "ghp_token"]> (<["gcash_backup_enabled" := "true"]> m))
    with_cached_key.

(** A remote end that answers every request with status 500. *)
Definition failing_remote : Request → FetchOutcome := λ _, Response 500 None.

(** The browser after a logout, with a remember-me cookie for the user of
    the scenario in the jar. *)
Definition remembered : Browser :=
  with_cookies (λ _, [("theme", "dark"); ("gcash_remember", "a@b.com")])
    (handleLogout with_cached_key).2.

End Scenario.

(** ** Further functions of the source

    The functions of [encryption.js], [storage.js], [auth.js] and the main
    script that the sections above leave out, and what they need of
    JavaScript and of the browser. *)

(** *** Values as JavaScript reads them *)

(** A value in a condition: [null], [false], [0] and the empty string are
    falsy, every array and object is truthy. *)
Definition js_truthy (v : JsValue) : bool :=
  match v with
  | JNull => false
  | JBool b => b
  | JNum n => negb (n =? 0)%Z
  | JStr s => negb (JsString.is_empty s)
  | JArr _ | JObj _ => true
  end.

(** The same for the result of a property read, where [None] is
    [undefined]. *)
Definition js_truthy_opt (v : option JsValue) : bool :=
  match v with
  | Some v => js_truthy v
  | None => false
  end.

(** The own property of an object; the keys of an object are distinct. *)
Fixpoint own_property (name : string) (fields : list (string * JsValue)) : option JsValue :=
  match fields with
  | [] => None
  | (key, value) :: rest => if String.eqb key name then Some value else own_property name rest
  end.

(** [v.name] for a name that no prototype defines ([email], [fullname],
    [files], [content]): reading from [null] throws, an object gives its own
    property, and any other value gives [undefined]. *)
Definition get_property (name : string) (v : JsValue) : Completion (option JsValue) :=
  match v with
  | JNull => Throw "Cannot read properties of null"
  | JObj fields => Normal (own_property name fields)
  | JBool _ | JNum _ | JStr _ | JArr _ => Normal None
  end.

(** [Object.values(v)]: it throws for [undefined] and [null]; an object
    gives the values of its properties, an array its elements, a string its
    characters, and a Boolean or a number nothing. The fields of a [JObj]
    are listed in the order in which the engine enumerates them (keys that
    are array indices first, then the others as they were created). *)
Definition Object_values (v : option JsValue) : Completion (list JsValue) :=
  match v with
  | None | Some JNull => Throw "Cannot convert undefined or null to object"
  | Some (JObj fields) => Normal (snd <$> fields)
  | Some (JArr items) => Normal items
  | Some (JStr s) =>
      Normal ((λ c : ascii, JStr (String c EmptyString)) <$> String.list_ascii_of_string s)
  | Some (JBool _) | Some (JNum _) => Normal []
  end.

Module JsStringMore.

(** [s.includes(needle)] *)
Fixpoint includes (needle s : string) : bool :=
  String.prefix needle s
  || match s with
     | EmptyString => false
     | String _ rest => includes needle rest
     end.

(** The string of a list of characters. *)
Definition of_chars (l : list ascii) : string := String.string_of_list_ascii l.

End JsStringMore.

(** *** The rest of the browser *)

(** [await response.json()] for the response to a request, as far as
    [restoreFromBackup] reads it: the parsed body, or the error of a body
    that is not JSON. *)
Class GistApi := {
  response_json : Request → Completion JsValue;
}.

(** What an assignment to [document.cookie] does to the jar when the
    assigned pair is not a plain one (see [is_plain_cookie_value]): the text
    may then hold attributes of its own, be too long, or be refused. *)
Class CookieLib := {
  document_cookie_assign_other : string → list (string * string) → list (string * string);
}.

(** A cookie value of printable ASCII characters without a semicolon and of
    moderate length: one that every browser stores as it is. *)
Definition is_plain_cookie_value (value : string) : bool :=
  JsString.forallb
    (λ c, (33 <=? JsString.code c)%N && (JsString.code c <=? 126)%N
          && negb (Ascii.eqb c ";"))
    value
  && bool_decide (String.length value ≤ 1024).

(** Storing a cookie: a cookie of the same name is replaced where it is, a
    new one goes to the end of the jar. *)
Fixpoint jar_put (name value : string) (jar : list (string * string))
    : list (string * string) :=
  match jar with
  | [] => [(name, value)]
  | (n, v) :: rest =>
      if String.eqb n name then (name, value) :: rest
      else (n, v) :: jar_put name value rest
  end.

(** Assigning [name=value; expires=<a date 30 days ahead>; path=/] to
    [document.cookie]. *)
Definition document_cookie_assign `{CookieLib} (name value expires : string) : JS unit :=
  if is_plain_cookie_value value
  then effect (with_cookies (jar_put name value))
  else
    effect (with_cookies
              (document_cookie_assign_other
                 (name +:+ "=" +:+ value +:+ "; expires=" +:+ expires +:+ "; path=/"))).

(** [window.location.href = page] *)
Definition navigate (page : string) : JS unit :=
  effect (with_location (Some page)).

(** [window.crypto.getRandomValues(new Uint8Array(length))]: more than
    65536 bytes at once are refused with a [QuotaExceededError]. *)
Definition getRandomValues (length : nat) (e : Entropy) : Completion WordArray * Entropy :=
  if (65536 <? N.of_nat length)%N then (Throw "QuotaExceededError", e)
  else let '(randomValues, e) := WordArray_random length e in (Normal randomValues, e).

(** *** encryption.js, continued *)

Definition generateRandomPassword_charset : string :=
  "abcdefghijklmnopqrstuvwxyzABCDEFGHIJKLMNOPQRSTUVWXYZ0123456789!@#$%^&*()-_=+[]{}|;:,.<>?".

(** [charset[randomValues[i] % charset.length]] *)
Definition generateRandomPassword_char (b : byte) : ascii :=
  default "?"%char
    (String.get (Byte.to_nat b mod String.length generateRandomPassword_charset)
       generateRandomPassword_charset).

(** [generateRandomPassword(length = 16)]; the error of [getRandomValues] is
    not caught. *)
Definition generateRandomPassword (length : option nat) (e : Entropy)
    : Completion string * Entropy :=
  let length := default 16 length in
  match getRandomValues length e with
  | (Normal randomValues, e) =>
      (Normal (JsStringMore.of_chars (generateRandomPassword_char <$> randomValues)), e)
  | (Throw message, e) => (Throw message, e)
  end.

(** *** storage.js, continued *)

Section StorageMore.
Context {json : JsonLib} {crypto : CryptoLib} {gists : GistApi}.
Local Open Scope js_scope.

(** [decryptData] called with the result of a property read: a value that
    is not a string has no [split], and the [TypeError] is rethrown like
    every other error of the [try] block. *)
Definition decryptData_value (encryptedData : option JsValue) (password : string)
    : Completion JsValue :=
  match encryptedData with
  | Some (JStr encryptedData) => decryptData encryptedData password
  | _ => Throw "Failed to decrypt data"
  end.

(** The request of [restoreFromBackup]. *)
Definition restoreFromBackup_request (githubToken gistId : string) : Request :=
  {| url := "https://api.github.com/gists/" +:+ gistId;
     method := "GET";
     authorization := "token " +:+ githubToken;
     content_type := None;
     body := None |}.

(** [restoreFromBackup(password)]; the result [JNull] is [null]. *)
Definition restoreFromBackup (password : string) : JS JsValue :=
  try_catch
    (githubToken <- localStorage_getItem "gcash_github_token";;
     if_falsy githubToken (throw "No GitHub token available") (λ githubToken,
       gistId <- localStorage_getItem "gcash_backup_gist_id";;
       if_falsy gistId (throw "No backup Gist ID found") (λ gistId,
         response <- fetch (restoreFromBackup_request githubToken gistId);;
         if negb (response_ok response.1)
         then throw ("GitHub API error: " +:+ pretty response.1)
         else
           gistData <-
             lift_completion (response_json (restoreFromBackup_request githubToken gistId));;
           gistFiles <- lift_completion (get_property "files" gistData);;
           files <- lift_completion (Object_values gistFiles);;
           match files with
           | [] => throw "No files found in backup Gist"
           | file :: _ =>
               encryptedData <- lift_completion (get_property "content" file);;
               userData <- lift_completion (decryptData_value encryptedData password);;
               ret userData
           end)))
    (λ _, ret JNull).

(** The request of [configureGithubBackup]. *)
Definition configureGithubBackup_request (githubToken : string) : Request :=
  {| url := "https://api.github.com/user";
     method := "GET";
     authorization := "token " +:+ githubToken;
     content_type := None;
     body := None |}.

(** [configureGithubBackup(githubToken)] *)
Definition configureGithubBackup (githubToken : string) : JS bool :=
  try_catch
    (response <- fetch (configureGithubBackup_request githubToken);;
     if negb (response_ok response.1) then throw "Invalid GitHub token"
     else
       localStorage_setItem "gcash_github_token" githubToken;;
       localStorage_setItem "gcash_backup_enabled" "true";;
       ret true)
    (λ _, ret false).

(** [exportUserData()]. The object URL that the source returns is
    represented by the text of the blob that it addresses; [None] is
    [null]. *)
Definition exportUserData : JS (option string) :=
  try_catch
    (userData <- loadUserData;;
     if negb (js_truthy userData) then throw "No user data available"
     else
       let dataStr := JSON_stringify userData in
       ret (Some dataStr))
    (λ _, ret None).

(** [importUserData(file, password)]. The file is given by what reading it
    as text yields: its content, or the error of the reader. *)
Definition importUserData (file : Completion string) (password : string) : JS bool :=
  try_catch
    (fileContent <- lift_completion file;;
     match JSON_parse fileContent with
     | None => throw "Unexpected token in JSON"
     | Some userData =>
         email <- lift_completion (get_property "email" userData);;
         fullname <-
           (if js_truthy_opt email then lift_completion (get_property "fullname" userData)
            else ret None);;
         if negb (js_truthy_opt email) || negb (js_truthy_opt fullname)
         then throw "Invalid user data format"
         else
           encryptedData <- lift_entropy (encryptData userData password);;
           match email with
           | Some (JStr email) =>
               localStorage_setItem ("gcash_user_" +:+ JsString.toLowerCase email) encryptedData;;
               ret true
           | _ => throw "userData.email.toLowerCase is not a function"
           end
     end)
    (λ _, ret false).

End StorageMore.

(** *** auth.js, continued *)

(** The fields of the login form as the handler reads them. *)
Record LoginForm : Type := {
  login_email : string;
  login_password : string;
  login_remember : bool;
}.

(** What the listener of [initializePasswordStrengthMeter] sets on the
    strength indicator: the width in percent, the background colour and the
    tooltip. *)
Record StrengthIndicator : Type := {
  indicator_width : nat;
  indicator_backgroundColor : string;
  indicator_title : string;
}.

Section AuthMore.
Context {json : JsonLib} {crypto : CryptoLib} {cookie_lib : CookieLib}.
Local Open Scope js_scope.

(** [handleLogin()]; [expires] is the date 30 days ahead as
    [toUTCString()] prints it. *)
Definition handleLogin (form : LoginForm) (expires : string) : JS unit :=
  let email := login_email form in
  let password := login_password form in
  let rememberMe := login_remember form in
  if negb (isValidEmail email)
  then showNotification "Please enter a valid email address" "error"
  else if JsString.is_empty password
  then showNotification "Please enter your password" "error"
  else
    encryptedUserData <- localStorage_getItem ("gcash_user_" +:+ JsString.toLowerCase email);;
    if_falsy encryptedUserData
      (showNotification "Email or password is incorrect" "error")
      (λ encryptedUserData,
         try_catch
           (userData <- lift_completion (decryptData encryptedUserData password);;
            localStorage_setItem "gcash_logged_in" "true";;
            localStorage_setItem "gcash_current_user" (JsString.toLowerCase email);;
            (if rememberMe
             then document_cookie_assign "gcash_remember" (JsString.toLowerCase email) expires
             else ret tt);;
            showNotification "Login successful! Redirecting..." "success";;
            redirect_later "dashboard.html")
           (λ _, showNotification "Email or password is incorrect" "error")).

(** [getCurrentUserData()]; the result [JNull] is [null]. *)
Definition getCurrentUserData : JS JsValue :=
  isLoggedIn <- localStorage_getItem "gcash_logged_in";;
  currentUserEmail <- localStorage_getItem "gcash_current_user";;
  if negb (bool_decide (isLoggedIn = Some "true")) then ret JNull
  else
    if_falsy currentUserEmail (ret JNull) (λ currentUserEmail,
      encryptedUserData <- localStorage_getItem ("gcash_user_" +:+ currentUserEmail);;
      if_falsy encryptedUserData (ret JNull) (λ encryptedUserData,
        try_catch
          (sessionKey <- getSessionKey;;
           if_falsy sessionKey (ret JNull) (λ sessionKey,
             userData <- lift_completion (decryptData encryptedUserData sessionKey);;
             ret userData))
          (λ _, ret JNull))).

(** The listener of [initializePasswordStrengthMeter] on an input of the
    password field; [previous] is the colour that the indicator had. *)
Definition updateStrengthIndicator (password previous : string) : StrengthIndicator :=
  let strength := validatePasswordStrength password in
  {| indicator_width := score strength * 100 / 4;
     indicator_backgroundColor :=
       match score strength with
       | 0 | 1 => "#dc3545"
       | 2 => "#ffc107"
       | 3 => "#28a745"
       | 4 => "#20c997"
       | _ => previous
       end;
     indicator_title := feedback strength |}.

End AuthMore.

(** *** The main script, continued *)

(** [checkAuthStatus()] on the page with the given path
    ([window.location.pathname]). *)
Definition checkAuthStatus (currentPage : string) : JS unit :=
  bind (localStorage_getItem "gcash_logged_in") (λ flag,
    let isLoggedIn := bool_decide (flag = Some "true") in
    let protectedPages := ["dashboard.html"] in
    let authPages := ["login.html"; "signup.html"] in
    let isProtectedPage :=
      existsb (λ page, JsStringMore.includes page currentPage) protectedPages in
    let isAuthPage :=
      existsb (λ page, JsStringMore.includes page currentPage) authPages in
    if isLoggedIn
    then (if isAuthPage then navigate "dashboard.html" else ret tt)
    else (if isProtectedPage then navigate "login.html" else ret tt)).

(** *** Notions used in the statements about these functions *)

(** A non-empty string of characters of the class [[^\s@]]. *)
Definition email_part (s : string) : Prop :=
  s ≠ "" ∧ JsString.forallb is_email_char s = true.

(** The number of character classes (lower-case letter, upper-case letter,
    digit, anything else) that occur in a password. *)
Definition password_classes (password : string) : nat :=
  (if JsString.existsb JsString.is_lower password then 1 else 0)
  + (if JsString.existsb JsString.is_upper password then 1 else 0)
  + (if JsString.existsb JsString.is_digit password then 1 else 0)
  + (if JsString.existsb
          (λ c, negb (JsString.is_upper c || JsString.is_lower c || JsString.is_digit c))
          password
     then 1 else 0).

(** A character occurs in a string. *)
Definition char_in (s : string) (c : ascii) : bool := JsString.existsb (Ascii.eqb c) s.

(** A cookie as a browser keeps it: the name is not empty and holds no
    equals sign, neither name nor value holds a semicolon, the name does not
    begin and the value does not end with white space. *)
Definition cookie_ok (c : string * string) : Prop :=
  c.1 ≠ ""
  ∧ JsString.count "=" c.1 = 0
  ∧ JsString.count ";" c.1 = 0
  ∧ JsString.count ";" c.2 = 0
  ∧ JsString.trimStart c.1 = c.1
  ∧ JsString.trimEnd (c.1 +:+ "=" +:+ c.2) = c.1 +:+ "=" +:+ c.2.

(** The remote end accepts a request: it answers with a status from 200 to
    299. *)
Definition accepted (w : Browser) (r : Request) : bool :=
  match network w r with
  | Response status _ => response_ok status
  | NetworkError => false
  end.

(** The browser after a login that succeeded: both login keys are set,
    the cookie is written when "remember me" is checked, and the success
    notification and the redirect follow. *)
Definition logged_in `{CookieLib} (form : LoginForm) (expires : string) (w : Browser)
    : Browser :=
  let email := JsString.toLowerCase (login_email form) in
  let w1 :=
    with_localStorage
      (λ m, <["gcash_current_user" := email]> (<["gcash_logged_in" := "true"]> m)) w in
  let w2 :=
    if login_remember form then (document_cookie_assign "gcash_remember" email expires w1).2
    else w1 in
  with_location (Some "dashboard.html")
    (with_notifications (cons ("Login successful! Redirecting...", "success")) w2).

(** A cookie that [checkRememberMeCookie] accepts: it is named
    [gcash_remember], and its value is not empty and names a stored
    record. *)
Definition remembered_cookie (w : Browser) (c : string * string) : bool :=
  String.eqb c.1 "gcash_remember"
  && negb (JsString.is_empty c.2)
  && truthy (localStorage w !! ("gcash_user_" +:+ c.2)).

(** All 256 bytes, in order. *)
Definition all_bytes : list byte := omap (λ n, Byte.of_N (N.of_nat n)) (seq 0 256).

(** ** A second scenario: the mirror, a login and an import *)

Module Visit.
#[local] Existing Instances Mock.json Mock.crypto.

(** A remote end that accepts every request and names the gist [g1]. *)
Definition accepting : Request → FetchOutcome := λ _, Response 200 (Some "g1").

(** The gist that holds the blob of the first scenario, as GitHub returns
    it. *)
Definition gist : JsValue :=
  JObj [("id", JStr "g1");
        ("files",
         JObj [("a_b_com.encrypted",
                JObj [("filename", JStr "a_b_com.encrypted");
                      ("content", JStr Scenario.signup_blob)])])].

(** A remote end whose responses all carry that gist. *)
#[export] Instance gists : GistApi := {| response_json := λ _, Normal gist |}.

(** A browser that refuses every cookie that is not a plain one. *)
#[export] Instance cookie_lib : CookieLib := {|
  document_cookie_assign_other := λ _ jar, jar;
|}.

(** The browser of the first scenario with the backup configured, a gist
    pointer stored and the remote end within reach. *)
Definition restorable : Browser :=
  with_network accepting
    (with_localStorage (<["gcash_backup_gist_id" := "g1"]>) Scenario.backup_configured).

(** The browser after the signup of the first scenario and a logout. *)
Definition after_logout : Browser := (handleLogout Scenario.after_signup).2.

(** The login of the same user, typed with capitals, with "remember me"
    checked. *)
Definition login_form : LoginForm := {|
  login_email := "A@B.com";
  login_password := "Str0ng!Pass";
  login_remember := true;
|}.

(** A login with an email that has no record. *)
Definition stranger_form : LoginForm := {|
  login_email := "x@y.org";
  login_password := "Str0ng!Pass";
  login_remember := false;
|}.

(** A login of the same user with another password. *)
Definition takeover_form : LoginForm := {|
  login_email := "a@b.com";
  login_password := "NewPass99";
  login_remember := false;
|}.

(** The expiry date of the cookie, 30 days after the instant of the
    scenario. *)
Definition expires : string := "Tue, 20 May 2025 10:00:00 GMT".

(** A signup whose confirmation differs from the password. *)
Definition mistyped_form : SignupForm := {|
  form_fullname := "A B";
  form_email := "a@b.com";
  form_password := "Str0ng!Pass";
  form_confirm_password := "Str0ng!Pas";
  form_terms := true;
|}.


End Visit.

(** * Properties *)

(** ** Strings *)

Module JsStringFacts.
Import JsString.

Lemma is_empty_false s : is_empty s = false ↔ s ≠ "".
Proof. destruct s; simpl; split; congruence. Qed.

Lemma count_app c s1 s2 : count c (s1 +:+ s2) = count c s1 + count c s2.
Proof. induction s1 as [|d s1 IH]; simpl; [done | rewrite IH; lia]. Qed.

(** A character that fails a test does not occur in a string whose
    characters all pass it. *)
Lemma count_forallb p c s : forallb p s = true → p c = false → count c s = 0.
Proof.
  intros Hall Hc. induction s as [|d s IH]; simpl in *; [done |].
  apply andb_true_iff in Hall as [Hd Hs].
  destruct (Ascii.eqb_spec d c) as [-> | _]; [congruence | by apply IH].
Qed.

Lemma count_head c s : count c (String c s) = S (count c s).
Proof. simpl. by rewrite Ascii.eqb_refl. Qed.

Lemma split_absent sep s : count sep s = 0 → split sep s = [s].
Proof.
  induction s as [|c s IH]; simpl; [done |].
  destruct (Ascii.eqb c sep); [done |]. intros Hs. by rewrite IH.
Qed.

(** Splitting cuts at the first separator. *)
Lemma split_first sep s1 s2 :
  count sep s1 = 0 → split sep (s1 +:+ String sep s2) = s1 :: split sep s2.
Proof.
  induction s1 as [|c s1 IH]; simpl.
  - intros _. by rewrite Ascii.eqb_refl.
  - destruct (Ascii.eqb c sep); [done |]. intros Hs. by rewrite IH.
Qed.

Lemma length_app s1 s2 : String.length (s1 +:+ s2) = String.length s1 + String.length s2.
Proof. induction s1 as [|c s1 IH]; simpl; [done | by rewrite IH]. Qed.

End JsStringFacts.

(** ** Hexadecimal text *)

Module HexFacts.

Lemma stringify_length w : String.length (Hex.stringify w) = 2 * length w.
Proof. induction w as [|b w IH]; simpl; [done | rewrite IH; lia]. Qed.

Lemma stringify_digits w : JsString.forallb Hex.is_hex_digit (Hex.stringify w) = true.
Proof. induction w as [|b w IH]; simpl; [done |]. rewrite IH. by destruct b. Qed.

(** Decoding inverts printing. *)
Lemma decode_stringify w : Hex.decode (Hex.stringify w) = Some w.
Proof.
  induction w as [|b w IH]; [done |].
  cbn [Hex.stringify Hex.decode]. rewrite IH. by destruct b.
Qed.

Lemma is_hex_digit_colon : Hex.is_hex_digit ":" = false.
Proof. reflexivity. Qed.

Lemma stringify_no_colon w : JsString.count ":" (Hex.stringify w) = 0.
Proof. eapply JsStringFacts.count_forallb; [apply stringify_digits | apply is_hex_digit_colon]. Qed.

Lemma is_hex_digit_base64 c : Hex.is_hex_digit c = true → is_base64_char c = true.
Proof. by destruct c as [[] [] [] [] [] [] [] []]. Qed.

End HexFacts.

(** ** The codec *)

Section CodecFacts.
Context {json : JsonLib} {crypto : CryptoLib}.

Lemma WordArray_random_length n e : length (WordArray_random n e).1 = n.
Proof. unfold WordArray_random. simpl. by rewrite length_fmap, length_seq. Qed.

Lemma Hex_parse_stringify w : Hex_parse (Hex.stringify w) = w.
Proof. unfold Hex_parse. by rewrite HexFacts.decode_stringify. Qed.

Lemma encryptData_iv_length e : length (encryptData_iv e) = 16.
Proof. apply WordArray_random_length. Qed.

Lemma encryptData_blob data password e :
  (encryptData data password e).1
  = Hex.stringify (encryptData_iv e)
    +:+ String ":" (CipherParams_toString (encryptData_cipher data password e)).
Proof.
  unfold encryptData, encryptData_cipher, encryptData_iv.
  change (128 / 8) with 16.
  destruct (WordArray_random 16 e) as [iv e1]. simpl.
  by destruct (AES_encrypt _ _ iv e1) as [c e2].
Qed.

Lemma decryptData_two_parts encryptedData password iv ciphertext :
  JsString.split ":" encryptedData = [iv; ciphertext] →
  decryptData encryptedData password
  = decryptData_result (decrypted_text iv ciphertext password).
Proof.
  intros Hparts. unfold decryptData, decryptData_try, decrypted_text, decryptData_result.
  rewrite Hparts. simpl.
  destruct (Utf8_stringify _) as [t|]; [|done].
  destruct (JsString.is_empty t); [done |].
  by destruct (JSON_parse t).
Qed.

Lemma decryptData_bad_format encryptedData password :
  length (JsString.split ":" encryptedData) ≠ 2 →
  decryptData encryptedData password = Throw "Failed to decrypt data".
Proof.
  intros Hlen. unfold decryptData, decryptData_try.
  by destruct (Nat.eqb_spec (length (JsString.split ":" encryptedData)) 2).
Qed.

Context {crypto_laws : CryptoLaws}.

Lemma CipherParams_toString_no_colon c :
  JsString.count ":" (CipherParams_toString c) = 0.
Proof.
  eapply JsStringFacts.count_forallb; [apply CipherParams_toString_base64 | done].
Qed.

(** A blob made by [encryptData] splits into the hexadecimal
    initialization vector and the ciphertext. *)
Lemma encryptData_split data password e :
  JsString.split ":" (encryptData data password e).1
  = [Hex.stringify (encryptData_iv e);
     CipherParams_toString (encryptData_cipher data password e)].
Proof.
  rewrite encryptData_blob.
  rewrite JsStringFacts.split_first by apply HexFacts.stringify_no_colon.
  by rewrite JsStringFacts.split_absent by apply CipherParams_toString_no_colon.
Qed.

(** Decrypting a blob made by [encryptData], under any password: the
    framing is transparent, and the result is decided by what the cipher
    makes of the ciphertext under the key derived from that password. *)
Lemma decryptData_encryptData data password1 password2 e :
  decryptData (encryptData data password1 e).1 password2
  = decryptData_result
      (Utf8_stringify
         (AES_decrypt (CipherParams_toString (encryptData_cipher data password1 e))
            (deriveKeyFromPassword password2 None) (encryptData_iv e))).
Proof.
  erewrite decryptData_two_parts by apply encryptData_split.
  unfold decrypted_text. by rewrite Hex_parse_stringify.
Qed.

(** Under a password that derives the key the blob was made with, the
    text is the one that was encrypted. *)
Lemma decryptData_same_key data password1 password2 e :
  deriveKeyFromPassword password2 None = deriveKeyFromPassword password1 None →
  decryptData (encryptData data password1 e).1 password2
  = decryptData_result (Some (dataStr_of data)).
Proof.
  intros Hkey. rewrite decryptData_encryptData, Hkey.
  unfold encryptData_cipher. by rewrite AES_decrypt_encrypt.
Qed.

End CodecFacts.

(** ** The mock satisfies what is assumed of the libraries *)

Module MockFacts.

Lemma lxor_byte x y : (x ≤ 255 → y ≤ 255 → N.lxor x y ≤ 255)%N.
Proof.
  intros Hx Hy.
  assert (Hlog : ∀ z, (z ≤ 255 → N.log2 z < 8)%N).
  { intros z Hz. destruct (N.eq_dec z 0%N) as [-> | Hnz]; [done |].
    apply N.log2_lt_pow2; [lia | simpl; lia]. }
  destruct (N.eq_dec (N.lxor x y) 0%N) as [Hz | Hnz]; [lia |].
  apply N.lt_succ_r. change (N.succ 255%N) with (2 ^ 8)%N.
  apply N.log2_lt_pow2; [lia |].
  eapply N.le_lt_trans; [apply N.log2_lxor |].
  apply N.max_lub_lt; by apply Hlog.
Qed.

Lemma byte_xor_to_N a b : Byte.to_N (byte_xor a b) = N.lxor (Byte.to_N a) (Byte.to_N b).
Proof.
  unfold byte_xor.
  destruct (Byte.of_N _) as [c|] eqn:Hc; simpl.
  - by apply Byte.to_of_N.
  - apply Byte.of_N_None_iff in Hc.
    pose proof (lxor_byte _ _ (Byte.to_N_bounded a) (Byte.to_N_bounded b)). lia.
Qed.

Lemma to_N_inj a b : Byte.to_N a = Byte.to_N b → a = b.
Proof. intros Heq. apply (inj Some). by rewrite <- !Byte.of_to_N, Heq. Qed.

(** Combining twice with the same byte gives the byte back. *)
Lemma byte_xor_involutive k a : byte_xor k (byte_xor k a) = a.
Proof.
  apply to_N_inj. rewrite !byte_xor_to_N.
  by rewrite <- N.lxor_assoc, N.lxor_nilpotent, N.lxor_0_l.
Qed.

Lemma utf8_decode_parse s : Mock.utf8_decode (Utf8_parse s) = Some s.
Proof.
  induction s as [|c s IH]; [done |].
  destruct c as [[] [] [] [] [] [] [] []];
    cbn -[Mock.utf8_decode Utf8_parse]; cbn [Mock.utf8_decode Utf8_parse Utf8_encode_char app];
    simpl; by rewrite IH.
Qed.

Lemma forallb_app p s1 s2 :
  JsString.forallb p (s1 +:+ s2) = JsString.forallb p s1 && JsString.forallb p s2.
Proof. induction s1 as [|c s1 IH]; simpl; [done | by rewrite IH, andb_assoc]. Qed.

Lemma forallb_impl (p q : ascii → bool) s :
  (∀ c, p c = true → q c = true) →
  JsString.forallb p s = true → JsString.forallb q s = true.
Proof.
  intros Hpq. induction s as [|c s IH]; simpl; [done |].
  rewrite !andb_true_iff. intros [Hc Hs]. auto.
Qed.

Lemma cipher_bytes_text c : Mock.cipher_bytes (Mock.cipher_text c) = Some c.
Proof. unfold Mock.cipher_text. simpl. apply HexFacts.decode_stringify. Qed.

#[export] Instance json_laws : @JsonLaws Mock.json.
Proof. split; reflexivity. Qed.

#[export] Instance crypto_laws : @CryptoLaws Mock.crypto.
Proof.
  split.
  - intros c. simpl. unfold Mock.cipher_text. rewrite forallb_app. simpl.
    eapply forallb_impl; [apply HexFacts.is_hex_digit_base64 | apply HexFacts.stringify_digits].
  - intros c. by simpl.
  - intros message key iv e.
    change (Mock.utf8_decode
              (Mock.decrypt (Mock.cipher_text (Mock.encrypt message key iv e).1) key iv)
            = Some message).
    unfold Mock.decrypt. rewrite cipher_bytes_text.
    unfold Mock.encrypt. cbn [fst]. rewrite <- list_fmap_compose.
    erewrite list_fmap_ext; [rewrite list_fmap_id; apply utf8_decode_parse |].
    intros i b _. apply byte_xor_involutive.
Qed.

End MockFacts.

(** ** Key derivation *)

Section KeyDerivationFacts.
Context {crypto : CryptoLib}.

Lemma Utf8_parse_app s1 s2 : Utf8_parse (s1 +:+ s2) = Utf8_parse s1 ++ Utf8_parse s2.
Proof. induction s1 as [|c s1 IH]; simpl; [done | by rewrite IH, app_assoc]. Qed.

(** HMAC fills a short key with zero bytes up to a block, so a key and the
    key followed by NUL characters give the same pads. *)
Lemma HMAC_create_nul key :
  length (Utf8_parse key) < hasher_blockSize * 4 →
  HMAC_create (key +:+ NUL) = HMAC_create key.
Proof.
  intros Hlen. unfold HMAC_create. rewrite Utf8_parse_app.
  change (Utf8_parse NUL) with [x00].
  rewrite !bool_decide_eq_false_2 by (rewrite ?length_app; simpl; lia).
  rewrite length_app. simpl.
  replace (hasher_blockSize * 4 - length (Utf8_parse key))
    with (S (hasher_blockSize * 4 - (length (Utf8_parse key) + 1))) by lia.
  simpl. by rewrite <- app_assoc.
Qed.

(** Two distinct passwords with one derived key. *)
Lemma deriveKeyFromPassword_nul password salt :
  length (Utf8_parse password) < hasher_blockSize * 4 →
  deriveKeyFromPassword (password +:+ NUL) salt = deriveKeyFromPassword password salt.
Proof.
  intros Hlen. unfold deriveKeyFromPassword, PBKDF2. by rewrite HMAC_create_nul.
Qed.

Lemma append_nul_neq s : s ≠ s +:+ NUL.
Proof.
  intros Heq. apply (f_equal String.length) in Heq.
  rewrite JsStringFacts.length_app in Heq. simpl in Heq. lia.
Qed.

End KeyDerivationFacts.

(** ** The claims about the codec *)

Section CodecClaims.
Context {json : JsonLib} {crypto : CryptoLib}.

Lemma decryptData_result_throw text :
  decryptData_result text = Throw "Failed to decrypt data"
  ↔ text = None ∨ text = Some "".
Proof.
  unfold decryptData_result. destruct text as [[|c t]|]; simpl.
  - split; [by right | done].
  - split; [done | by intros [|]].
  - split; [by left | done].
Qed.

Lemma serializable_nonempty {json_laws : JsonLaws} v :
  JSON_serializable v → JsString.is_empty (JSON_stringify v) = false.
Proof.
  unfold JSON_serializable. intros Hv.
  destruct (JSON_stringify v); [|done]. by rewrite JSON_parse_empty in Hv.
Qed.

(** A serializable object survives the codec under any password that
    derives the key it was encrypted with. *)
Lemma decryptData_same_key_object {json_laws : JsonLaws} {crypto_laws : CryptoLaws}
    R password1 password2 e :
  deriveKeyFromPassword password2 None = deriveKeyFromPassword password1 None →
  typeof_object R = true →
  JSON_serializable R →
  decryptData (encryptData R password1 e).1 password2 = Normal R.
Proof.
  intros Hkey Hobj HR. rewrite decryptData_same_key by done.
  unfold dataStr_of, decryptData_result. rewrite Hobj.
  rewrite serializable_nonempty by done. by rewrite HR.
Qed.

(** A string payload: the codec returns the parsed value when the string
    is a JSON text and the string itself when it is not. *)
Lemma decryptData_string_payload {crypto_laws : CryptoLaws} s K e :
  s ≠ "" →
  decryptData (encryptData (JStr s) K e).1 K = Normal (default (JStr s) (JSON_parse s)).
Proof.
  intros Hs. rewrite decryptData_same_key by done.
  unfold dataStr_of, decryptData_result. simpl.
  by rewrite (proj2 (JsStringFacts.is_empty_false s)).
Qed.

End CodecClaims.

(** C1. For every record [R] that is a JSON-serializable object and every
    key string [K], [decryptData(encryptData(R, K), K)] returns [R]: the
    round-trip law of the codec. *)
Theorem decryptData_encryptData_roundtrip
    {json : JsonLib} {crypto : CryptoLib} {json_laws : JsonLaws} {crypto_laws : CryptoLaws}
    (R : JsValue) (K : string) (e : Entropy) :
  typeof_object R = true →
  JSON_serializable R →
  decryptData (encryptData R K e).1 K = Normal R.
Proof.
  intros Hobj HR.
  (* the framing is undone and the cipher gives the serialized text back *)
  rewrite decryptData_same_key by done.
  unfold dataStr_of, decryptData_result. rewrite Hobj.
  (* the text of an object is not empty, and parses to the object *)
  rewrite serializable_nonempty by done.
  by rewrite HR.
Qed.

(** C8. Every output of [encryptData] contains exactly one ':' separator;
    the segment before it is the initialization vector in 32 hexadecimal
    characters, which decode to 16 bytes; and both segments are non-empty. *)
Theorem encryptData_blob_format
    {json : JsonLib} {crypto : CryptoLib} {crypto_laws : CryptoLaws}
    (data : JsValue) (password : string) (e : Entropy) :
  ∃ iv_hex ciphertext : string,
    (encryptData data password e).1 = iv_hex +:+ ":" +:+ ciphertext
    ∧ JsString.count ":" (encryptData data password e).1 = 1
    ∧ JsString.split ":" (encryptData data password e).1 = [iv_hex; ciphertext]
    ∧ String.length iv_hex = 32
    ∧ JsString.forallb Hex.is_hex_digit iv_hex = true
    ∧ length (Hex_parse iv_hex) = 16
    ∧ iv_hex ≠ ""
    ∧ ciphertext ≠ "".
Proof.
  exists (Hex.stringify (encryptData_iv e)),
         (CipherParams_toString (encryptData_cipher data password e)).
  assert (Hlen : String.length (Hex.stringify (encryptData_iv e)) = 32).
  { by rewrite HexFacts.stringify_length, encryptData_iv_length. }
  split_and!.
  - apply encryptData_blob.
  - rewrite encryptData_blob, JsStringFacts.count_app, JsStringFacts.count_head.
    by rewrite HexFacts.stringify_no_colon, CipherParams_toString_no_colon.
  - apply encryptData_split.
  - done.
  - apply HexFacts.stringify_digits.
  - by rewrite Hex_parse_stringify, encryptData_iv_length.
  - intros Hempty. by rewrite Hempty in Hlen.
  - apply CipherParams_toString_nonempty.
Qed.

(** C6. Whenever decryption of a blob with two parts succeeds, that is, the
    decrypted text is not empty, and the text is not parseable as JSON,
    [decryptData] returns the text unchanged; the failure of the parse step
    raises no error. *)
Theorem decryptData_raw_text_fallback
    {json : JsonLib} {crypto : CryptoLib}
    (encryptedData password iv ciphertext text : string) :
  JsString.split ":" encryptedData = [iv; ciphertext] →
  decrypted_text iv ciphertext password = Some text →
  text ≠ "" →
  JSON_parse text = None →
  decryptData encryptedData password = Normal (JStr text).
Proof.
  intros Hparts Htext Hne Hparse.
  rewrite (decryptData_two_parts _ _ _ _ Hparts), Htext.
  unfold decryptData_result.
  by rewrite (proj2 (JsStringFacts.is_empty_false text)), Hparse.
Qed.


(** C9. There is a plain-string payload that is itself a JSON text, the
    string [true], for which [decryptData(encryptData(s, K), K)] returns the
    parsed value and not the string, so the round-trip law fails for it; in
    general a non-empty string payload comes back as the value that
    [JSON.parse] gives for it, and as itself only when it is not a JSON
    text. *)
Theorem string_payload_parsed_on_return
    {json : JsonLib} {crypto : CryptoLib} {json_laws : JsonLaws} {crypto_laws : CryptoLaws} :
  (∃ (s : string) (v : JsValue),
      JSON_parse s = Some v
      ∧ v ≠ JStr s
      ∧ ∀ K e, decryptData (encryptData (JStr s) K e).1 K = Normal v)
  ∧ (∀ (s K : string) (e : Entropy),
        s ≠ "" →
        decryptData (encryptData (JStr s) K e).1 K
        = Normal (default (JStr s) (JSON_parse s))).
Proof.
  split.
  - exists "true", (JBool true). split_and!.
    + apply JSON_parse_true.
    + discriminate.
    + intros K e. rewrite decryptData_string_payload by discriminate.
      by rewrite JSON_parse_true.
  - intros s K e Hs. by apply decryptData_string_payload.
Qed.

(** A serializable object encrypted under a password decrypts under the
    password followed by a NUL character, for every implementation of the
    libraries: the two passwords derive one key. *)
Lemma decryptData_nul_padded_password
    {json : JsonLib} {crypto : CryptoLib} {json_laws : JsonLaws} {crypto_laws : CryptoLaws}
    (R : JsValue) (K : string) (e : Entropy) :
  length (Utf8_parse K) < hasher_blockSize * 4 →
  typeof_object R = true →
  JSON_serializable R →
  K ≠ K +:+ NUL ∧ decryptData (encryptData R K e).1 (K +:+ NUL) = Normal R.
Proof.
  intros Hlen Hobj HR. split; [apply append_nul_neq |].
  apply decryptData_same_key_object; [|done..].
  by apply deriveKeyFromPassword_nul.
Qed.

(** C2, as amended. For every record [R] and key strings [K1] and [K2],
    [decryptData(encryptData(R, K1), K2)] fails with the decryption error
    exactly when decrypting the ciphertext under the key derived from [K2]
    yields malformed or empty text. Nothing else is checked: the key strings
    are not compared. *)
Theorem decryptData_other_key_fails_iff
    {json : JsonLib} {crypto : CryptoLib} {crypto_laws : CryptoLaws}
    (R : JsValue) (K1 K2 : string) (e : Entropy) :
  let text :=
    Utf8_stringify
      (AES_decrypt (CipherParams_toString (encryptData_cipher R K1 e))
         (deriveKeyFromPassword K2 None) (encryptData_iv e)) in
  decryptData (encryptData R K1 e).1 K2 = Throw "Failed to decrypt data"
  ↔ text = None ∨ text = Some "".
Proof.
  intros text. rewrite decryptData_encryptData. apply decryptData_result_throw.
Qed.

(** ** Session state *)

(** Opens the combinators of [JS], so that a handler becomes a function of
    the state of the browser. *)
Ltac js_unfold :=
  unfold try_catch, bind, localStorage_getItem, localStorage_setItem,
    localStorage_removeItem, getSessionKey, lift_completion, read, effect, fetch,
    ret, throw.

Section SessionFacts.
Context {json : JsonLib} {crypto : CryptoLib}.

Lemma truthy_Some s : s ≠ "" → truthy (Some s) = true.
Proof. by destruct s. Qed.

Lemma if_falsy_truthy {A} s (falsy : A) (then_ : string → A) :
  s ≠ "" → if_falsy (Some s) falsy then_ = then_ s.
Proof. by destruct s. Qed.

Lemma user_key_neq_gist_id email : "gcash_user_" +:+ email ≠ "gcash_backup_gist_id".
Proof. discriminate. Qed.

Lemma user_key_neq_last_backup email : "gcash_user_" +:+ email ≠ "gcash_last_backup".
Proof. discriminate. Qed.

Lemma user_key_neq_logged_in email : "gcash_user_" +:+ email ≠ "gcash_logged_in".
Proof. discriminate. Qed.

Lemma user_key_neq_current_user email : "gcash_user_" +:+ email ≠ "gcash_current_user".
Proof. discriminate. Qed.

(** With the form checks passed, [handleSignup] goes on to look for a
    record of the email. *)
Lemma handleSignup_valid form w :
  signup_form_valid form = true →
  handleSignup form w
  = (if truthy (localStorage w !! ("gcash_user_" +:+ JsString.toLowerCase (form_email form)))
     then showNotification "This email is already registered" "error" w
     else
       let email := JsString.toLowerCase (form_email form) in
       let userData :=
         handleSignup_userData (form_fullname form) (form_email form) (clock w) in
       let blob := encryptData userData (form_password form) (entropy w) in
       (Normal (),
        with_location (Some "dashboard.html")
          (with_notifications
             (cons ("Account created successfully! Redirecting...", "success"))
             (with_localStorage
                (λ m, <["gcash_current_user" := email]>
                        (<["gcash_logged_in" := "true"]>
                           (<["gcash_user_" +:+ email := blob.1]> m)))
                (with_entropy blob.2 w))))).
Proof.
  unfold signup_form_valid, handleSignup. rewrite !andb_true_iff, negb_true_iff.
  intros [[[[Hname Hemail] Hpw] Hconfirm] Hterms].
  rewrite Hname, Hemail, Hpw, Hconfirm, Hterms. simpl.
  js_unfold. simpl.
  destruct (truthy _); [done |].
  unfold lift_entropy. simpl.
  by destruct (encryptData _ _ _) as [blob e1].
Qed.

End SessionFacts.

Section AuthFacts.
Context {json : JsonLib} {crypto : CryptoLib}.

(** Whatever the form holds, [handleSignup] leaves the store alone when a
    record of the email exists. *)
Lemma handleSignup_keeps_record form w blob :
  localStorage w !! ("gcash_user_" +:+ JsString.toLowerCase (form_email form)) = Some blob →
  blob ≠ "" →
  localStorage (handleSignup form w).2 = localStorage w
  ∧ sessionStorage (handleSignup form w).2 = sessionStorage w.
Proof.
  intros Hblob Hne. unfold handleSignup.
  repeat (match goal with
          | |- context [if ?b then _ else _] => destruct b; [done |]
          end).
  js_unfold. simpl.
  by rewrite Hblob, truthy_Some.
Qed.

(** [loadUserData] reads only. *)
Lemma loadUserData_state w : (loadUserData w).2 = w.
Proof.
  unfold loadUserData, if_falsy. js_unfold. simpl.
  destruct (localStorage w !! "gcash_current_user") as [[|c1 email]|]; simpl; try done.
  destruct (localStorage w !! _) as [[|c2 blob]|]; simpl; try done.
  destruct (sessionStorage w !! _) as [[|c3 key]|]; simpl; try done.
  by destruct (decryptData _ _).
Qed.

(** Without a session key [loadUserData] has nothing to decrypt with. *)
Lemma loadUserData_no_session_key w :
  sessionStorage w !! "gcash_session_key" = None →
  loadUserData w = (Normal JNull, w).
Proof.
  intros Hkey.
  unfold loadUserData, if_falsy. js_unfold.
  cbn beta iota.
  destruct (localStorage w !! "gcash_current_user") as [[|c1 email]|];
    cbn beta iota delta [JsString.is_empty]; try done.
  destruct (localStorage w !! ("gcash_user_" +:+ String c1 email)) as [[|c2 blob]|];
    cbn beta iota delta [JsString.is_empty]; try done.
  by rewrite Hkey.
Qed.

(** [clearSessionKey] is what empties the session key cache. *)
Lemma clearSessionKey_clears w :
  sessionStorage (clearSessionKey w).2 !! "gcash_session_key" = None.
Proof. simpl. apply lookup_delete_eq. Qed.

(** With a user, a record and a session key, [loadUserData] is
    [decryptData] with its errors turned into [null]. *)
Lemma loadUserData_decrypts w email blob key :
  localStorage w !! "gcash_current_user" = Some email → email ≠ "" →
  localStorage w !! ("gcash_user_" +:+ email) = Some blob → blob ≠ "" →
  sessionStorage w !! "gcash_session_key" = Some key → key ≠ "" →
  loadUserData w
  = (match decryptData blob key with
     | Normal userData => Normal userData
     | Throw _ => Normal JNull
     end, w).
Proof.
  intros Hemail Hne1 Hblob Hne2 Hkey Hne3.
  unfold loadUserData. js_unfold.
  simpl. rewrite Hemail, if_falsy_truthy by done. simpl.
  rewrite Hblob, if_falsy_truthy by done. simpl.
  rewrite Hkey, if_falsy_truthy by done.
  by destruct (decryptData blob key).
Qed.

End AuthFacts.

(** C7. For every email that already has a stored record, a signup with
    that email fails and leaves the record, and all other stored state, as
    it was: the handler shows one error notification and nothing else
    happens. The message is that the email is already registered whenever
    the submission passes the checks of the form, which come first (as the
    signup that made the record did); a submission that fails one of them
    is turned down with the message of that check. *)
Theorem handleSignup_already_registered
    {json : JsonLib} {crypto : CryptoLib} (form : SignupForm) (w : Browser) (blob : string) :
  localStorage w !! ("gcash_user_" +:+ JsString.toLowerCase (form_email form)) = Some blob →
  blob ≠ "" →
  ∃ message w',
    handleSignup form w = (Normal (), w')
    ∧ notifications w' = (message, "error") :: notifications w
    ∧ localStorage w' = localStorage w
    ∧ localStorage w' !! ("gcash_user_" +:+ JsString.toLowerCase (form_email form)) = Some blob
    ∧ sessionStorage w' = sessionStorage w
    ∧ cookies w' = cookies w
    ∧ location w' = location w
    ∧ (signup_form_valid form = true → message = "This email is already registered").
Proof.
  intros Hblob Hne.
  destruct (signup_form_valid form) eqn:Hvalid.
  - (* the form passes its checks: the duplicate check turns the signup down *)
    exists "This email is already registered".
    rewrite handleSignup_valid by done. rewrite Hblob, truthy_Some by done.
    eexists. split; [reflexivity |]. by simpl.
  - (* one of the checks of the form fails first *)
    unfold signup_form_valid in Hvalid. unfold handleSignup.
    destruct (JsString.is_empty _ || bool_decide _);
      [eexists _, _; split; [reflexivity |]; by simpl |].
    destruct (isValidEmail _);
      [|eexists _, _; split; [reflexivity |]; by simpl].
    destruct (isValid _);
      [|eexists _, _; split; [reflexivity |]; by simpl].
    destruct (String.eqb _ _);
      [|eexists _, _; split; [reflexivity |]; by simpl].
    destruct (form_terms form);
      [|eexists _, _; split; [reflexivity |]; by simpl].
    discriminate.
Qed.

(** C3, as the code has it. After the signup of the scenario in a fresh
    browser the store holds the encrypted record at [gcash_user_a@b.com],
    but the session key cache is empty, because [handleSignup] never calls
    [storeSessionKey], and [loadUserData] returns [null] instead of the
    record. *)
Theorem signup_then_loadUserData_null {json : JsonLib} {crypto : CryptoLib} :
  let w := (handleSignup Scenario.signup_form Scenario.fresh_browser).2 in
  localStorage w
  = {[ "gcash_current_user" := "a@b.com";
       "gcash_logged_in" := "true";
       "gcash_user_a@b.com" :=
         (encryptData Scenario.signup_record "Str0ng!Pass" (entropy Scenario.fresh_browser)).1 ]}
  ∧ sessionStorage w !! "gcash_session_key" = None
  ∧ loadUserData w = (Normal JNull, w).
Proof.
  intros w. subst w. rewrite handleSignup_valid by reflexivity.
  change (truthy _) with false. cbv iota zeta.
  split_and!.
  - reflexivity.
  - reflexivity.
  - by apply loadUserData_no_session_key.
Qed.

(** C4, as the code has it. In every state [handleLogout] removes the
    logged-in flag and the current-user pointer and expires the remember-me
    cookie, but it never calls [clearSessionKey]: the cached session key
    stays in [sessionStorage]. *)
Theorem handleLogout_leaves_session_key (w : Browser) :
  let w' := (handleLogout w).2 in
  localStorage w' !! "gcash_logged_in" = None
  ∧ localStorage w' !! "gcash_current_user" = None
  ∧ (∀ value, ("gcash_remember", value) ∉ cookies w')
  ∧ sessionStorage w' !! "gcash_session_key" = sessionStorage w !! "gcash_session_key".
Proof.
  simpl. split_and!.
  - rewrite lookup_delete_ne by done. apply lookup_delete_eq.
  - apply lookup_delete_eq.
  - intros value Hin. apply list_elem_of_filter in Hin as [Hname _]. by apply Hname.
  - done.
Qed.

(** ** The remember-me cookie *)

Section CookieFacts.

Lemma substring_all s : String.substring 0 (String.length s) s = s.
Proof. induction s as [|c s IH]; simpl; [done | by rewrite IH]. Qed.

(** The email that [checkRememberMeCookie] reads out of a cookie. *)
Lemma remember_cookie_email email :
  let cookie := "gcash_remember=" +:+ email in
  JsString.startsWith "gcash_remember=" cookie = true
  ∧ JsString.substring (String.length "gcash_remember=") (String.length cookie) cookie = email.
Proof.
  split; [by destruct email |].
  unfold JsString.substring. rewrite JsStringFacts.length_app.
  replace (String.length "gcash_remember=" + String.length email
           - String.length "gcash_remember=") with (String.length email) by lia.
  apply substring_all.
Qed.

(** Parts of the cookie text that are not remember-me cookies are passed
    over. *)
Lemma checkRememberMeCookie_loop_skip before rest w :
  Forall (λ c, JsString.startsWith "gcash_remember=" (JsString.trim c) = false) before →
  checkRememberMeCookie_loop (before ++ rest) w = checkRememberMeCookie_loop rest w.
Proof.
  induction 1 as [|c before Hc _ IH]; [done |].
  cbn [app checkRememberMeCookie_loop]. by rewrite Hc.
Qed.

(** A remember-me cookie that names an email with a stored record logs
    that email in. *)
Lemma checkRememberMeCookie_loop_hit c rest w email blob :
  JsString.trim c = "gcash_remember=" +:+ email →
  email ≠ "" →
  localStorage w !! ("gcash_user_" +:+ email) = Some blob →
  blob ≠ "" →
  checkRememberMeCookie_loop (c :: rest) w
  = (Normal true,
     with_localStorage
       (λ m, <["gcash_current_user" := email]> (<["gcash_logged_in" := "true"]> m)) w).
Proof.
  intros Hc Hemail Hblob Hne.
  destruct (remember_cookie_email email) as [Hprefix Hsub].
  cbn [checkRememberMeCookie_loop]. rewrite Hc, Hprefix, Hsub.
  rewrite (proj2 (JsStringFacts.is_empty_false email)) by done.
  js_unfold. cbn beta iota.
  by rewrite Hblob, truthy_Some.
Qed.

End CookieFacts.

(** C10. Whenever the cookie text holds a [gcash_remember] cookie (the
    first one, if there are several) that names an email for which a stored
    blob exists, [checkRememberMeCookie] returns [true] and moves the store
    to the logged-in state: [gcash_logged_in] is ["true"] and
    [gcash_current_user] is that email. No password is asked for and
    nothing is decrypted, since the function uses none of the codec, and the
    session storage, and with it the session key cache, is left as it was:
    unpopulated if it was. *)
Theorem checkRememberMeCookie_logs_in
    (w : Browser) (before after : list string) (c email blob : string) :
  JsString.split ";" (document_cookie w) = before ++ c :: after →
  Forall (λ c', JsString.startsWith "gcash_remember=" (JsString.trim c') = false) before →
  JsString.trim c = "gcash_remember=" +:+ email →
  email ≠ "" →
  localStorage w !! ("gcash_user_" +:+ email) = Some blob →
  blob ≠ "" →
  ∃ w',
    checkRememberMeCookie w = (Normal true, w')
    ∧ localStorage w' !! "gcash_logged_in" = Some "true"
    ∧ localStorage w' !! "gcash_current_user" = Some email
    ∧ localStorage w' !! ("gcash_user_" +:+ email) = Some blob
    ∧ sessionStorage w' = sessionStorage w
    ∧ (sessionStorage w !! "gcash_session_key" = None →
       sessionStorage w' !! "gcash_session_key" = None).
Proof.
  intros Hparts Hbefore Hc Hemail Hblob Hne.
  unfold checkRememberMeCookie. js_unfold. cbn beta iota.
  rewrite Hparts, checkRememberMeCookie_loop_skip by done.
  erewrite checkRememberMeCookie_loop_hit by done.
  eexists. split; [reflexivity |]. simpl. split_and!.
  - rewrite lookup_insert_ne by done. apply lookup_insert_eq.
  - apply lookup_insert_eq.
  - by rewrite !lookup_insert_ne by (symmetry; first
      [apply user_key_neq_current_user | apply user_key_neq_logged_in]).
  - done.
  - done.
Qed.

(** ** Saving and the backup mirror *)

Section StorageFacts.
Context {json : JsonLib} {crypto : CryptoLib}.

Lemma backup_frame_refl w : backup_frame w w.
Proof. by split. Qed.

(** [backupUserData] catches every failure: it always completes with a
    Boolean, whatever the remote end does, and touches nothing but its own
    bookkeeping. *)
Lemma backupUserData_completes encryptedData w :
  ∃ done w', backupUserData encryptedData w = (Normal done, w') ∧ backup_frame w w'.
Proof.
  unfold backupUserData, if_falsy. js_unfold. simpl.
  destruct (bool_decide (localStorage w !! "gcash_backup_enabled" = Some "true"));
    simpl; [|eauto using backup_frame_refl].
  destruct (localStorage w !! "gcash_github_token") as [[|c1 token]|];
    simpl; [eauto using backup_frame_refl | |eauto using backup_frame_refl].
  destruct (localStorage w !! "gcash_current_user") as [email|];
    simpl; [|eauto using backup_frame_refl].
  destruct (localStorage w !! "gcash_backup_gist_id") as [[|c2 gistId]|]; simpl.
  all: destruct (network w _) as [|status gist_id]; simpl;
    [eauto using backup_frame_refl |].
  all: destruct (response_ok status) eqn:Hok; simpl; [|eauto using backup_frame_refl].
  all: try (destruct gist_id as [id|]; simpl; [|eauto using backup_frame_refl]).
  all: rewrite ?Hok; simpl.
  all: do 2 eexists; (split; [reflexivity |]); split; [|done]; intros key Hk1 Hk2; simpl.
  all: by rewrite ?lookup_insert_ne by done.
Qed.

End StorageFacts.

(** C5. In every state in which a current user is set and a session key is
    cached, [saveUserData] writes the encrypted blob under the user's key
    and returns [true], whatever the remote end of the backup does: a
    network failure, an error status and an unreadable response all leave
    the save successful. *)
Theorem saveUserData_survives_backup_failure
    {json : JsonLib} {crypto : CryptoLib}
    (userData : JsValue) (w : Browser) (remote : Request → FetchOutcome)
    (email key : string) :
  localStorage w !! "gcash_current_user" = Some email →
  email ≠ "" →
  sessionStorage w !! "gcash_session_key" = Some key →
  key ≠ "" →
  ∃ w',
    saveUserData userData (with_network remote w) = (Normal true, w')
    ∧ localStorage w' !! ("gcash_user_" +:+ email)
      = Some (encryptData userData key (entropy w)).1.
Proof.
  intros Hemail Hne1 Hkey Hne2.
  unfold saveUserData. js_unfold.
  cbn beta iota. cbn [with_network localStorage sessionStorage].
  rewrite Hemail, if_falsy_truthy by done. cbn beta iota.
  cbn [with_network localStorage sessionStorage].
  rewrite Hkey, if_falsy_truthy by done.
  unfold lift_entropy. cbn [with_network entropy].
  destruct (encryptData userData key (entropy w)) as [blob e1]. cbn beta iota.
  cbn beta iota.
  match goal with
  | |- context [backupUserData blob ?w1] =>
      destruct (backupUserData_completes blob w1) as (done & w' & -> & Hframe & _)
  end.
  exists w'. split; [done |].
  rewrite Hframe by (first [apply user_key_neq_gist_id | apply user_key_neq_last_backup]).
  simpl. apply lookup_insert_eq.
Qed.

(** ** What the scenario needs *)

Section ScenarioFacts.
Context {json : JsonLib} {crypto : CryptoLib}.

Lemma encryptData_nonempty data password e : (encryptData data password e).1 ≠ "".
Proof. rewrite encryptData_blob. by destruct (Hex.stringify _). Qed.

Context {json_laws : JsonLaws} {crypto_laws : CryptoLaws}.

(** Had the password been cached with [storeSessionKey] after a signup,
    [loadUserData] would return the record that the signup created. The
    code never makes that call. *)
Lemma loadUserData_after_signup_with_key form w :
  let email := JsString.toLowerCase (form_email form) in
  let userData := handleSignup_userData (form_fullname form) (form_email form) (clock w) in
  signup_form_valid form = true →
  email ≠ "" →
  form_password form ≠ "" →
  truthy (localStorage w !! ("gcash_user_" +:+ email)) = false →
  JSON_serializable userData →
  (loadUserData (storeSessionKey (form_password form) (handleSignup form w).2).2).1
  = Normal userData.
Proof.
  intros email userData Hvalid Hemail Hpw Hfree Hser.
  rewrite handleSignup_valid by done. fold email. rewrite Hfree. cbv zeta.
  fold email userData.
  erewrite (loadUserData_decrypts _ email _ (form_password form)); cbn [fst].
  - by rewrite decryptData_same_key_object.
  - simpl. apply lookup_insert_eq.
  - done.
  - simpl. rewrite !lookup_insert_ne by (symmetry; first
      [apply user_key_neq_current_user | apply user_key_neq_logged_in]).
    apply lookup_insert_eq.
  - apply encryptData_nonempty.
  - simpl. apply lookup_insert_eq.
  - done.
Qed.

End ScenarioFacts.

(** * The scenario, evaluated

    The theorems above at the inputs of the scenario, with the mock of the
    libraries in place of CryptoJS and [JSON]. *)

Section Evaluation.
#[local] Existing Instances Mock.json Mock.crypto MockFacts.json_laws MockFacts.crypto_laws.

Lemma decryptData_encryptData_roundtrip_witness :
  typeof_object Scenario.signup_record = true
  ∧ JSON_serializable Scenario.signup_record
  ∧ decryptData
      (encryptData Scenario.signup_record "Str0ng!Pass" (entropy Scenario.fresh_browser)).1
      "Str0ng!Pass"
    = Normal Scenario.signup_record.
Proof.
  split; [reflexivity |]. split; [reflexivity |].
  apply decryptData_encryptData_roundtrip; reflexivity.
Defined.

Lemma encryptData_blob_format_witness :
  @CryptoLaws Mock.crypto
  ∧ ∃ iv_hex ciphertext : string,
      let blob :=
        (encryptData Scenario.signup_record "Str0ng!Pass" (entropy Scenario.fresh_browser)).1 in
      blob = iv_hex +:+ ":" +:+ ciphertext
      ∧ JsString.count ":" blob = 1
      ∧ JsString.split ":" blob = [iv_hex; ciphertext]
      ∧ String.length iv_hex = 32
      ∧ JsString.forallb Hex.is_hex_digit iv_hex = true
      ∧ length (Hex_parse iv_hex) = 16
      ∧ iv_hex ≠ ""
      ∧ ciphertext ≠ "".
Proof.
  split; [exact MockFacts.crypto_laws |].
  exact (encryptData_blob_format
           Scenario.signup_record "Str0ng!Pass" (entropy Scenario.fresh_browser)).
Defined.

Lemma decryptData_raw_text_fallback_witness :
  let blob := (encryptData (JStr "hello") "k" (entropy Scenario.fresh_browser)).1 in
  let iv := Hex.stringify (encryptData_iv (entropy Scenario.fresh_browser)) in
  let ciphertext :=
    CipherParams_toString
      (encryptData_cipher (JStr "hello") "k" (entropy Scenario.fresh_browser)) in
  JsString.split ":" blob = [iv; ciphertext]
  ∧ decrypted_text iv ciphertext "k" = Some "hello"
  ∧ "hello" ≠ ""
  ∧ JSON_parse "hello" = None
  ∧ decryptData blob "k" = Normal (JStr "hello").
Proof.
  intros blob iv ciphertext.
  assert (Hparts : JsString.split ":" blob = [iv; ciphertext]) by reflexivity.
  assert (Htext : decrypted_text iv ciphertext "k" = Some "hello") by reflexivity.
  assert (Hne : "hello" ≠ "") by discriminate.
  assert (Hparse : JSON_parse "hello" = None) by reflexivity.
  split_and!; try assumption.
  exact (decryptData_raw_text_fallback blob "k" iv ciphertext "hello" Hparts Htext Hne Hparse).
Defined.

Lemma string_payload_parsed_on_return_witness :
  @JsonLaws Mock.json
  ∧ @CryptoLaws Mock.crypto
  ∧ (∃ (s : string) (v : JsValue),
        JSON_parse s = Some v
        ∧ v ≠ JStr s
        ∧ ∀ K e, decryptData (encryptData (JStr s) K e).1 K = Normal v)
  ∧ (∀ (s K : string) (e : Entropy),
        s ≠ "" →
        decryptData (encryptData (JStr s) K e).1 K
        = Normal (default (JStr s) (JSON_parse s))).
Proof.
  split; [exact MockFacts.json_laws |]. split; [exact MockFacts.crypto_laws |].
  exact string_payload_parsed_on_return.
Defined.

(** C2, refuted. The password of the scenario and the same password
    followed by a NUL character are distinct key strings, and the record
    encrypted under the first decrypts under the second.
    [decryptData_nul_padded_password] shows the same for every
    implementation of the libraries. *)
Lemma wrong_key_not_rejected :
  let K1 := "Str0ng!Pass" in
  let K2 := "Str0ng!Pass" +:+ NUL in
  K1 ≠ K2
  ∧ decryptData (encryptData Scenario.signup_record K1 (entropy Scenario.fresh_browser)).1 K2
    = Normal Scenario.signup_record.
Proof. split; [discriminate | reflexivity]. Qed.

Lemma decryptData_other_key_fails_iff_witness :
  let R := Scenario.signup_record in
  let K1 := "Str0ng!Pass" in
  let K2 := "WrongPass1!" in
  let e := entropy Scenario.fresh_browser in
  let text :=
    Utf8_stringify
      (AES_decrypt (CipherParams_toString (encryptData_cipher R K1 e))
         (deriveKeyFromPassword K2 None) (encryptData_iv e)) in
  @CryptoLaws Mock.crypto
  ∧ text = None
  ∧ decryptData (encryptData R K1 e).1 K2 = Throw "Failed to decrypt data".
Proof.
  intros R K1 K2 e text.
  split; [exact MockFacts.crypto_laws |].
  assert (Htext : text = None) by reflexivity.
  split; [exact Htext |].
  apply (decryptData_other_key_fails_iff R K1 K2 e). by left.
Defined.

Lemma handleSignup_already_registered_witness :
  let w := Scenario.after_signup in
  let blob := Scenario.signup_blob in
  localStorage w !! ("gcash_user_" +:+ JsString.toLowerCase "a@b.com") = Some blob
  ∧ blob ≠ ""
  ∧ signup_form_valid Scenario.signup_form = true
  ∧ ∃ message w',
      handleSignup Scenario.signup_form w = (Normal (), w')
      ∧ notifications w' = (message, "error") :: notifications w
      ∧ localStorage w' = localStorage w
      ∧ localStorage w' !! ("gcash_user_" +:+ JsString.toLowerCase "a@b.com") = Some blob
      ∧ sessionStorage w' = sessionStorage w
      ∧ cookies w' = cookies w
      ∧ location w' = location w
      ∧ (signup_form_valid Scenario.signup_form = true →
         message = "This email is already registered").
Proof.
  intros w blob.
  assert (Hblob : localStorage w !! ("gcash_user_" +:+ JsString.toLowerCase "a@b.com")
                  = Some blob) by reflexivity.
  assert (Hne : blob ≠ "") by (vm_compute; discriminate).
  split_and!; [assumption | assumption | reflexivity |].
  exact (handleSignup_already_registered Scenario.signup_form w blob Hblob Hne).
Defined.

Lemma checkRememberMeCookie_logs_in_witness :
  let w := Scenario.remembered in
  let blob := Scenario.signup_blob in
  document_cookie w = "theme=dark; gcash_remember=a@b.com"
  ∧ localStorage w !! "gcash_logged_in" = None
  ∧ ∃ w',
      checkRememberMeCookie w = (Normal true, w')
      ∧ localStorage w' !! "gcash_logged_in" = Some "true"
      ∧ localStorage w' !! "gcash_current_user" = Some "a@b.com"
      ∧ localStorage w' !! ("gcash_user_" +:+ "a@b.com") = Some blob
      ∧ sessionStorage w' = sessionStorage w
      ∧ (sessionStorage w !! "gcash_session_key" = None →
         sessionStorage w' !! "gcash_session_key" = None).
Proof.
  intros w blob. split; [reflexivity |]. split; [reflexivity |].
  apply (checkRememberMeCookie_logs_in w ["theme=dark"] [] " gcash_remember=a@b.com"
           "a@b.com" blob).
  - reflexivity.
  - by repeat constructor.
  - reflexivity.
  - discriminate.
  - reflexivity.
  - vm_compute; discriminate.
Defined.

Lemma saveUserData_survives_backup_failure_witness :
  let w := Scenario.backup_configured in
  localStorage w !! "gcash_current_user" = Some "a@b.com"
  ∧ "a@b.com" ≠ ""
  ∧ sessionStorage w !! "gcash_session_key" = Some "Str0ng!Pass"
  ∧ "Str0ng!Pass" ≠ ""
  ∧ (backupUserData "blob" (with_network Scenario.failing_remote w)).1 = Normal false
  ∧ ∃ w',
      saveUserData Scenario.signup_record (with_network Scenario.failing_remote w) = (Normal true, w')
      ∧ localStorage w' !! ("gcash_user_" +:+ "a@b.com")
        = Some (encryptData Scenario.signup_record "Str0ng!Pass" (entropy w)).1.
Proof.
  intros w.
  assert (Hemail : localStorage w !! "gcash_current_user" = Some "a@b.com") by reflexivity.
  assert (Hkey : sessionStorage w !! "gcash_session_key" = Some "Str0ng!Pass") by reflexivity.
  split_and!; try assumption; try discriminate.
  - reflexivity.
  - exact (saveUserData_survives_backup_failure Scenario.signup_record w Scenario.failing_remote
             "a@b.com" "Str0ng!Pass" Hemail ltac:(discriminate) Hkey ltac:(discriminate)).
Defined.

(** The defect behind C3 and C4, evaluated. After the signup of the
    scenario nothing is cached, so [loadUserData] gives [null]; once the
    password is cached as the session key it gives the record; a logout
    leaves that key where it was; and [clearSessionKey], which the logout
    does not call, removes it. *)
Example session_key_never_managed :
  (loadUserData Scenario.after_signup).1 = Normal JNull
  ∧ (loadUserData Scenario.with_cached_key).1 = Normal Scenario.signup_record
  ∧ (getSessionKey (handleLogout Scenario.with_cached_key).2).1 = Normal (Some "Str0ng!Pass")
  ∧ (getSessionKey (clearSessionKey Scenario.with_cached_key).2).1 = Normal None.
Proof. split_and!; reflexivity. Qed.

End Evaluation.
(** * Further properties *)

(** ** Validation *)

Section ValidationFacts.

Lemma email_part_cons c s :
  email_part (String c s) ↔ is_email_char c = true ∧ (s = "" ∨ email_part s).
Proof.
  unfold email_part. simpl. rewrite andb_true_iff. split.
  - intros [_ [Hc Hs]]. split; [done |]. destruct s; [by left | by right].
  - intros [Hc [-> | [_ Hs]]]; by split_and!.
Qed.

Lemma match_email_tld_spec s : match_email_tld s = true ↔ email_part s.
Proof.
  unfold match_email_tld, email_part. rewrite andb_true_iff, negb_true_iff.
  by rewrite JsStringFacts.is_empty_false.
Qed.

(** The test for a literal character at the head of a string, as a pattern
    of [match] writes it. *)
Lemma match_head_dot (f : string → bool) s :
  match s with String "." rest => f rest | _ => false end = true
  ↔ ∃ rest, s = String "." rest ∧ f rest = true.
Proof.
  destruct s as [|c rest]; [split; [done | by intros (? & ? & ?)] |].
  destruct (Ascii.eqb_spec c ".") as [-> | Hne].
  - split; [eauto | by intros (? & [= <-] & ?)].
  - split; [|by intros (? & [= ->] & ?)].
    by destruct c as [[] [] [] [] [] [] [] []].
Qed.

Lemma match_head_at (f : string → bool) s :
  match s with String "@" rest => f rest | _ => false end = true
  ↔ ∃ rest, s = String "@" rest ∧ f rest = true.
Proof.
  destruct s as [|c rest]; [split; [done | by intros (? & ? & ?)] |].
  destruct (Ascii.eqb_spec c "@") as [-> | Hne].
  - split; [eauto | by intros (? & [= <-] & ?)].
  - split; [|by intros (? & [= ->] & ?)].
    by destruct c as [[] [] [] [] [] [] [] []].
Qed.

Lemma match_email_domain_spec s :
  match_email_domain s = true
  ↔ ∃ domain tld, s = domain +:+ "." +:+ tld ∧ email_part domain ∧ email_part tld.
Proof.
  induction s as [|c s IH].
  - split; [done |]. intros ([|] & ? & ? & [? _] & _); by simplify_eq/=.
  - cbn [match_email_domain]. rewrite andb_true_iff, orb_true_iff, match_head_dot, IH.
    split.
    + intros [Hc [(tld & -> & Htld) | (domain & tld & -> & Hdomain & Htld)]].
      * exists (String c ""), tld. split; [done |].
        split; [by apply email_part_cons; auto | by apply match_email_tld_spec].
      * exists (String c domain), tld. split; [done |].
        split; [by apply email_part_cons; auto | done].
    + intros ([|c' domain] & tld & Heq & Hdomain & Htld); [by destruct Hdomain |].
      simpl in Heq. injection Heq as <- ->.
      apply email_part_cons in Hdomain as [Hc [-> | Hdomain]].
      * split; [done |]. left. exists tld. by rewrite match_email_tld_spec.
      * split; [done |]. right. by exists domain, tld.
Qed.

Lemma match_email_spec s :
  match_email s = true
  ↔ ∃ loc rest, s = loc +:+ "@" +:+ rest ∧ email_part loc ∧ match_email_domain rest = true.
Proof.
  induction s as [|c s IH].
  - split; [done |]. intros ([|] & ? & ? & [? _] & _); by simplify_eq/=.
  - cbn [match_email]. rewrite andb_true_iff, orb_true_iff, match_head_at, IH.
    split.
    + intros [Hc [(rest & -> & Hrest) | (loc & rest & -> & Hloc & Hrest)]].
      * exists (String c ""), rest. split; [done |].
        split; [by apply email_part_cons; auto | done].
      * exists (String c loc), rest. split; [done |].
        split; [by apply email_part_cons; auto | done].
    + intros ([|c' loc] & rest & Heq & Hloc & Hrest); [by destruct Hloc |].
      simpl in Heq. injection Heq as <- ->.
      apply email_part_cons in Hloc as [Hc [-> | Hloc]].
      * split; [done |]. left. by exists rest.
      * split; [done |]. right. by exists loc, rest.
Qed.

End ValidationFacts.

(** X1. [isValidEmail] accepts exactly the strings of the form
    [local@domain.tld] in which each of the three parts is a non-empty
    string without white space and without [@]. *)
Theorem isValidEmail_shape (email : string) :
  isValidEmail email = true
  ↔ ∃ loc domain tld : string,
      email = loc +:+ "@" +:+ domain +:+ "." +:+ tld
      ∧ email_part loc ∧ email_part domain ∧ email_part tld.
Proof.
  unfold isValidEmail. rewrite match_email_spec. split.
  - intros (loc & rest & -> & Hloc & Hrest).
    apply match_email_domain_spec in Hrest as (domain & tld & -> & Hdomain & Htld).
    by exists loc, domain, tld.
  - intros (loc & domain & tld & -> & Hloc & Hdomain & Htld).
    exists loc, (domain +:+ "." +:+ tld). split_and!; [done..|].
    apply match_email_domain_spec. by exists domain, tld.
Qed.

Section LowerCaseFacts.

Lemma is_email_char_lower c : is_email_char (JsString.lower_char c) = is_email_char c.
Proof. by destruct c as [[] [] [] [] [] [] [] []]. Qed.

Lemma lower_char_dot c : JsString.lower_char c = "."%char ↔ c = "."%char.
Proof. destruct c as [[] [] [] [] [] [] [] []]; by split. Qed.

Lemma lower_char_at c : JsString.lower_char c = "@"%char ↔ c = "@"%char.
Proof. destruct c as [[] [] [] [] [] [] [] []]; by split. Qed.

Lemma lower_char_idemp c : JsString.lower_char (JsString.lower_char c) = JsString.lower_char c.
Proof. by destruct c as [[] [] [] [] [] [] [] []]. Qed.

Lemma match_email_tld_lower s :
  match_email_tld (JsString.toLowerCase s) = match_email_tld s.
Proof.
  unfold match_email_tld, JsString.toLowerCase. f_equal; [by destruct s |].
  induction s as [|c s IH]; simpl; [done |]. by rewrite is_email_char_lower, IH.
Qed.

Lemma match_email_domain_lower s :
  match_email_domain (JsString.toLowerCase s) = match_email_domain s.
Proof.
  induction s as [|c s IH]; [done |].
  cbn [JsString.toLowerCase JsString.map match_email_domain].
  fold (JsString.toLowerCase s). rewrite is_email_char_lower, IH. do 2 f_equal.
  apply eq_true_iff_eq. rewrite !match_head_dot. split.
  - intros (rest & Heq & Hrest). destruct s as [|c' s']; [done |].
    injection Heq as Hc <-. apply lower_char_dot in Hc as ->.
    exists s'. by rewrite <- match_email_tld_lower.
  - intros (rest & -> & Hrest). exists (JsString.toLowerCase rest).
    by rewrite match_email_tld_lower.
Qed.

Lemma match_email_lower s : match_email (JsString.toLowerCase s) = match_email s.
Proof.
  induction s as [|c s IH]; [done |].
  cbn [JsString.toLowerCase JsString.map match_email].
  fold (JsString.toLowerCase s). rewrite is_email_char_lower, IH. do 2 f_equal.
  apply eq_true_iff_eq. rewrite !match_head_at. split.
  - intros (rest & Heq & Hrest). destruct s as [|c' s']; [done |].
    injection Heq as Hc <-. apply lower_char_at in Hc as ->.
    exists s'. by rewrite <- match_email_domain_lower.
  - intros (rest & -> & Hrest). exists (JsString.toLowerCase rest).
    by rewrite match_email_domain_lower.
Qed.

Lemma toLowerCase_idemp s :
  JsString.toLowerCase (JsString.toLowerCase s) = JsString.toLowerCase s.
Proof.
  induction s as [|c s IH]; [done |].
  cbn [JsString.toLowerCase JsString.map]. fold (JsString.toLowerCase s).
  fold (JsString.toLowerCase (JsString.toLowerCase s)).
  by rewrite lower_char_idemp, IH.
Qed.

Lemma toLowerCase_length s : String.length (JsString.toLowerCase s) = String.length s.
Proof. induction s as [|c s IH]; simpl; [done | by rewrite <- IH]. Qed.

End LowerCaseFacts.

(** X2. Letter case does not matter to the email check, and lower-casing an
    email a second time changes nothing: the lower-cased email under which
    the handlers store and look up a record is as valid as the email that
    was typed, and is its own lower-case form. *)
Theorem isValidEmail_toLowerCase (email : string) :
  isValidEmail (JsString.toLowerCase email) = isValidEmail email
  ∧ JsString.toLowerCase (JsString.toLowerCase email) = JsString.toLowerCase email.
Proof. split; [apply match_email_lower | apply toLowerCase_idemp]. Qed.

Section PasswordFacts.

Lemma existsb_nonempty_classes c s :
  let p := String c s in
  JsString.existsb JsString.is_lower p
  || JsString.existsb JsString.is_upper p
  || JsString.existsb JsString.is_digit p
  || JsString.existsb
       (λ c, negb (JsString.is_upper c || JsString.is_lower c || JsString.is_digit c)) p
  = true.
Proof.
  simpl.
  destruct (JsString.is_lower c), (JsString.is_upper c), (JsString.is_digit c); simpl;
    by rewrite ?orb_true_r.
Qed.

Lemma password_classes_bounds password :
  password_classes password ≤ 4 ∧ (password ≠ "" → 1 ≤ password_classes password).
Proof.
  split.
  - unfold password_classes.
    destruct (JsString.existsb JsString.is_lower _),
      (JsString.existsb JsString.is_upper _),
      (JsString.existsb JsString.is_digit _),
      (JsString.existsb _ _); simpl; lia.
  - destruct password as [|c s]; [done |]. intros _.
    pose proof (existsb_nonempty_classes c s) as Hany. cbv zeta in Hany.
    unfold password_classes.
    destruct (JsString.existsb JsString.is_lower _),
      (JsString.existsb JsString.is_upper _),
      (JsString.existsb JsString.is_digit _),
      (JsString.existsb _ _); simpl in *; (lia || done).
Qed.

(** For a password of eight characters or more the score is the number of
    character classes in it. *)
Lemma validatePasswordStrength_long password :
  8 ≤ String.length password →
  score (validatePasswordStrength password) = password_classes password
  ∧ isValid (validatePasswordStrength password) = bool_decide (2 ≤ password_classes password).
Proof.
  intros Hlen. destruct (password_classes_bounds password) as [Hle _].
  unfold validatePasswordStrength. rewrite bool_decide_eq_false_2 by lia.
  unfold password_classes in *.
  destruct (JsString.existsb JsString.is_lower password),
    (JsString.existsb JsString.is_upper password),
    (JsString.existsb JsString.is_digit password),
    (JsString.existsb _ password); by simpl.
Qed.

Lemma validatePasswordStrength_short password :
  String.length password < 8 →
  validatePasswordStrength password
  = {| isValid := false; score := 0;
       feedback := "Password should be at least 8 characters long" |}.
Proof. intros Hlen. unfold validatePasswordStrength. by rewrite bool_decide_eq_true_2. Qed.

End PasswordFacts.

(** X3. [validatePasswordStrength] accepts a password exactly when it has at
    least eight characters and mixes at least two of the four character
    classes. The score is at most 4, it is 0 only for a password that is too
    short, and for a longer one it is the number of classes, which is at
    least 1: a long password of a single class is the only weak one. *)
Theorem validatePasswordStrength_accepts (password : string) :
  let strength := validatePasswordStrength password in
  (isValid strength = true ↔ 8 ≤ String.length password ∧ 2 ≤ password_classes password)
  ∧ score strength ≤ 4
  ∧ (score strength = 0 ↔ String.length password < 8)
  ∧ (8 ≤ String.length password → score strength = password_classes password).
Proof.
  intros strength. subst strength.
  destruct (password_classes_bounds password) as [Hle Hge].
  destruct (decide (String.length password < 8)) as [Hshort | Hlong].
  - rewrite validatePasswordStrength_short by done. simpl.
    split_and!; [split; [done | lia] | lia | done | lia].
  - destruct (validatePasswordStrength_long password) as [-> ->]; [lia |].
    rewrite bool_decide_eq_true.
    assert (Hne : password ≠ "") by (intros ->; simpl in *; lia).
    specialize (Hge Hne).
    split_and!; [split; [intros; lia | by intros []] | done | lia | done].
Qed.

(** X4. The strength indicator is red exactly for the passwords that the
    signup turns down, its width is the score in quarters of 100 percent,
    and its tooltip is the feedback of the check; the colour that the
    indicator had before plays no role. *)
Theorem updateStrengthIndicator_red (password previous : string) :
  let indicator := updateStrengthIndicator password previous in
  (indicator_backgroundColor indicator = "#dc3545"
   ↔ isValid (validatePasswordStrength password) = false)
  ∧ indicator_width indicator = 25 * score (validatePasswordStrength password)
  ∧ indicator_width indicator ≤ 100
  ∧ indicator_title indicator = feedback (validatePasswordStrength password)
  ∧ updateStrengthIndicator password previous = updateStrengthIndicator password "".
Proof.
  intros indicator. subst indicator. unfold updateStrengthIndicator.
  destruct (password_classes_bounds password) as [Hle _]. simpl.
  destruct (decide (String.length password < 8)) as [Hshort | Hlong].
  - rewrite validatePasswordStrength_short by done. simpl.
    split_and!; (done || lia).
  - destruct (validatePasswordStrength_long password) as [Hscore Hvalid]; [lia |].
    rewrite Hvalid, Hscore in *.
    destruct (password_classes password) as [|[|[|[|[|n]]]]]; simpl; try lia;
      split_and!; (done || lia).
Qed.

(** ** The codec, at its edges *)

Section CodecEdgeFacts.
Context {json : JsonLib} {crypto : CryptoLib}.

Lemma split_length sep s : length (JsString.split sep s) = S (JsString.count sep s).
Proof.
  induction s as [|c s IH]; [done |]. simpl.
  destruct (Ascii.eqb c sep); simpl; [by rewrite IH |].
  destruct (JsString.split sep s) as [|part parts]; [done |]. by rewrite <- IH.
Qed.

End CodecEdgeFacts.

(** X5. [decryptData] turns down every blob that does not hold exactly one
    ':': a text without a separator and a text with two or more of them both
    end in the decryption error, whatever the password is. *)
Theorem decryptData_separator_count
    {json : JsonLib} {crypto : CryptoLib} (encryptedData password : string) :
  JsString.count ":" encryptedData ≠ 1 →
  decryptData encryptedData password = Throw "Failed to decrypt data".
Proof.
  intros Hcount. apply decryptData_bad_format. rewrite split_length. lia.
Qed.

(** X6. The empty string does not survive the codec: its blob decrypts to
    the empty text, which [decryptData] takes for a failed decryption, so
    [decryptData(encryptData('', K), K)] throws even with the right key. *)
Theorem decryptData_empty_payload
    {json : JsonLib} {crypto : CryptoLib} {crypto_laws : CryptoLaws}
    (K : string) (e : Entropy) :
  decryptData (encryptData (JStr "") K e).1 K = Throw "Failed to decrypt data".
Proof. by rewrite decryptData_same_key. Qed.

(** ** Random passwords *)

Section RandomPasswordFacts.

Lemma of_chars_length l : String.length (JsStringMore.of_chars l) = length l.
Proof. induction l as [|c l IH]; simpl; [done | by rewrite IH]. Qed.

Lemma of_chars_forallb p l :
  JsString.forallb p (JsStringMore.of_chars l) = forallb p l.
Proof. induction l as [|c l IH]; simpl; [done | by rewrite IH]. Qed.

Lemma of_chars_existsb p l :
  JsString.existsb p (JsStringMore.of_chars l) = existsb p l.
Proof. induction l as [|c l IH]; simpl; [done | by rewrite IH]. Qed.

Lemma generateRandomPassword_char_in b :
  char_in generateRandomPassword_charset (generateRandomPassword_char b) = true.
Proof. by destruct b. Qed.

Lemma getRandomValues_small n e :
  (N.of_nat n ≤ 65536)%N →
  getRandomValues n e = (Normal (WordArray_random n e).1, (WordArray_random n e).2).
Proof.
  intros Hn. unfold getRandomValues.
  destruct (N.ltb_spec 65536 (N.of_nat n)); [lia |].
  by destruct (WordArray_random n e).
Qed.

Lemma getRandomValues_large n e :
  (65536 < N.of_nat n)%N → getRandomValues n e = (Throw "QuotaExceededError", e).
Proof.
  intros Hn. unfold getRandomValues.
  by destruct (N.ltb_spec 65536 (N.of_nat n)); [|lia].
Qed.

Lemma existsb_replicate {A} (p : A → bool) n x :
  existsb p (replicate n x) = bool_decide (0 < n) && p x.
Proof.
  induction n as [|n IH]; [done |]. simpl. rewrite IH.
  destruct (p x); [done |]. by rewrite andb_false_r.
Qed.

End RandomPasswordFacts.

(** X7. [generateRandomPassword] returns a password of exactly the length
    asked for, 16 by default, made of characters of its character set only,
    and it uses up as many bytes of randomness; asked for more than 65536
    characters it throws, because the browser refuses that much randomness
    at once. *)
Theorem generateRandomPassword_length_charset (length : option nat) (e : Entropy) :
  let n := default 16 length in
  ((N.of_nat n ≤ 65536)%N →
   ∃ password,
     generateRandomPassword length e = (Normal password, λ i, e (n + i))
     ∧ String.length password = n
     ∧ JsString.forallb (char_in generateRandomPassword_charset) password = true)
  ∧ ((65536 < N.of_nat n)%N →
     generateRandomPassword length e = (Throw "QuotaExceededError", e)).
Proof.
  intros n. unfold generateRandomPassword. fold n. split; intros Hn.
  - rewrite getRandomValues_small by done. eexists. split; [reflexivity |]. split.
    + by rewrite of_chars_length, length_fmap, WordArray_random_length.
    + rewrite of_chars_forallb, forallb_forall. intros c Hin.
      apply in_map_iff in Hin as (b & <- & _). apply generateRandomPassword_char_in.
  - by rewrite getRandomValues_large.
Qed.

(** X8. [generateRandomPassword] gives no guarantee of strength: for every
    length that the browser serves there is an outcome of the random source
    for which the password is one that [validatePasswordStrength] turns
    down, that of the letter a repeated. *)
Theorem generateRandomPassword_may_be_weak (length : nat) :
  (N.of_nat length ≤ 65536)%N →
  ∃ (e : Entropy) (password : string),
    (generateRandomPassword (Some length) e).1 = Normal password
    ∧ isValid (validatePasswordStrength password) = false.
Proof.
  intros Hn. exists (λ _, x00).
  exists (JsStringMore.of_chars (replicate length "a"%char)).
  assert (Hbytes : (WordArray_random length (λ _, x00)).1 = replicate length x00).
  { unfold WordArray_random. simpl. generalize 0.
    induction length as [|k IH]; intros start; [done |]. simpl. f_equal. apply IH. lia. }
  split.
  - unfold generateRandomPassword. cbn [default].
    rewrite getRandomValues_small by done. cbn [fst]. unfold id.
    rewrite Hbytes, fmap_replicate. reflexivity.
  - destruct (decide (String.length (JsStringMore.of_chars (replicate length "a"%char)) < 8))
      as [Hshort | Hlong].
    + by rewrite validatePasswordStrength_short.
    + destruct (validatePasswordStrength_long
                  (JsStringMore.of_chars (replicate length "a"%char))) as [_ ->]; [lia |].
      apply bool_decide_eq_false. unfold password_classes.
      rewrite !of_chars_existsb, !existsb_replicate. simpl.
      rewrite !andb_false_r, andb_true_r. case_bool_decide; simpl; lia.
Qed.

(** X9. The characters of a generated password are not equally likely:
    a random byte is reduced modulo the 88 characters of the character set,
    so each of its first 80 characters stands for three of the 256 bytes and
    each of the last 8 (from the vertical bar on) for two; no other
    character is ever produced. *)
Theorem generateRandomPassword_char_bias (c : ascii) :
  length (filter (λ b, generateRandomPassword_char b = c) all_bytes)
  = match String.index 0 (String c EmptyString) generateRandomPassword_charset with
    | Some i => if i <? 80 then 3 else 2
    | None => 0
    end.
Proof. destruct c as [[] [] [] [] [] [] [] []]; vm_compute; reflexivity. Qed.

(** ** The record store *)

Section StoreFacts.
Context {json : JsonLib} {crypto : CryptoLib}.

Lemma if_falsy_falsy {A} v (falsy : A) (then_ : string → A) :
  truthy v = false → if_falsy v falsy then_ = falsy.
Proof. by destruct v as [[|c s]|]. Qed.

(** What a successful [saveUserData] leaves behind. *)
Lemma saveUserData_effect userData w email key :
  localStorage w !! "gcash_current_user" = Some email → email ≠ "" →
  sessionStorage w !! "gcash_session_key" = Some key → key ≠ "" →
  ∃ w',
    saveUserData userData w = (Normal true, w')
    ∧ localStorage w' !! ("gcash_user_" +:+ email)
      = Some (encryptData userData key (entropy w)).1
    ∧ localStorage w' !! "gcash_current_user" = Some email
    ∧ sessionStorage w' = sessionStorage w.
Proof.
  intros Hemail Hne1 Hkey Hne2.
  unfold saveUserData. js_unfold. cbn beta iota.
  rewrite Hemail, if_falsy_truthy by done. cbn beta iota.
  rewrite Hkey, if_falsy_truthy by done.
  unfold lift_entropy.
  destruct (encryptData userData key (entropy w)) as [blob e1]. cbn beta iota.
  match goal with
  | |- context [backupUserData blob ?w1] =>
      destruct (backupUserData_completes blob w1) as (done & w' & -> & Hframe & Hsession)
  end.
  exists w'. split; [done |]. split_and!.
  - rewrite Hframe by (first [apply user_key_neq_gist_id | apply user_key_neq_last_backup]).
    simpl. apply lookup_insert_eq.
  - rewrite Hframe by done. simpl.
    rewrite lookup_insert_ne by apply user_key_neq_current_user. done.
  - by rewrite Hsession.
Qed.

Lemma saveUserData_no_session userData w :
  truthy (localStorage w !! "gcash_current_user") = false
  ∨ truthy (sessionStorage w !! "gcash_session_key") = false →
  saveUserData userData w = (Normal false, w).
Proof.
  intros Hmissing. unfold saveUserData. js_unfold. cbn beta iota.
  destruct (truthy (localStorage w !! "gcash_current_user")) eqn:Huser.
  - destruct Hmissing as [? | Hkey]; [done |].
    destruct (localStorage w !! "gcash_current_user") as [[|c email]|]; [done | |done].
    cbn beta iota delta [if_falsy JsString.is_empty].
    by rewrite if_falsy_falsy.
  - by rewrite if_falsy_falsy.
Qed.

Lemma loadUserData_reads_only' w :
  ∃ userData,
    loadUserData w = (Normal userData, w)
    ∧ (truthy (localStorage w !! "gcash_current_user") = false → userData = JNull)
    ∧ (∀ email, localStorage w !! "gcash_current_user" = Some email →
                truthy (localStorage w !! ("gcash_user_" +:+ email)) = false →
                userData = JNull)
    ∧ (truthy (sessionStorage w !! "gcash_session_key") = false → userData = JNull).
Proof.
  unfold loadUserData. js_unfold. cbn beta iota.
  destruct (localStorage w !! "gcash_current_user") as [[|c1 email]|] eqn:Huser;
    cbn beta iota delta [if_falsy JsString.is_empty];
    [by exists JNull | | by exists JNull].
  destruct (localStorage w !! ("gcash_user_" +:+ String c1 email)) as [[|c2 blob]|] eqn:Hblob;
    cbn beta iota delta [if_falsy JsString.is_empty];
    [by exists JNull | | by exists JNull].
  destruct (sessionStorage w !! "gcash_session_key") as [[|c3 key]|] eqn:Hkey;
    cbn beta iota delta [if_falsy JsString.is_empty];
    [by exists JNull | | by exists JNull].
  destruct (decryptData (String c2 blob) (String c3 key)) as [v | msg]; cbn beta iota.
  - exists v. split_and!; [done | done | | done].
    intros email' [= <-]. by rewrite Hblob.
  - exists JNull. by split_and!.
Qed.

End StoreFacts.


(** X11. Save and load compose to the identity: with a current user and a
    cached session key, [loadUserData] after [saveUserData] returns the
    object that was saved, whatever the backup mirror did in between. *)
Theorem loadUserData_saveUserData
    {json : JsonLib} {crypto : CryptoLib} {json_laws : JsonLaws} {crypto_laws : CryptoLaws}
    (userData : JsValue) (w : Browser) (email key : string) :
  localStorage w !! "gcash_current_user" = Some email → email ≠ "" →
  sessionStorage w !! "gcash_session_key" = Some key → key ≠ "" →
  typeof_object userData = true →
  JSON_serializable userData →
  (saveUserData userData w).1 = Normal true
  ∧ (loadUserData (saveUserData userData w).2).1 = Normal userData.
Proof.
  intros Hemail Hne1 Hkey Hne2 Hobj Hser.
  destruct (saveUserData_effect userData w email key) as (w' & -> & Hblob & Huser & Hsession);
    [done..|].
  split; [done |]. cbn [snd].
  erewrite loadUserData_decrypts; [| exact Huser | done | exact Hblob | | | done].
  - cbn [fst]. by rewrite decryptData_same_key_object.
  - apply encryptData_nonempty.
  - by rewrite Hsession.
Qed.

(** X12. [loadUserData] only reads: it never throws and never changes the
    browser, and it returns [null] whenever the current user, the record of
    that user or the session key is missing. *)
Theorem loadUserData_reads_only {json : JsonLib} {crypto : CryptoLib} (w : Browser) :
  ∃ userData,
    loadUserData w = (Normal userData, w)
    ∧ (truthy (localStorage w !! "gcash_current_user") = false → userData = JNull)
    ∧ (∀ email, localStorage w !! "gcash_current_user" = Some email →
                truthy (localStorage w !! ("gcash_user_" +:+ email)) = false →
                userData = JNull)
    ∧ (truthy (sessionStorage w !! "gcash_session_key") = false → userData = JNull).
Proof. apply loadUserData_reads_only'. Qed.

(** ** The backup mirror *)

(** X13. A backup leaves a trace only when it succeeds: if [backupUserData]
    returns [false] the browser is exactly as before, and if it returns
    [true] the mirror was configured, [gcash_last_backup] holds the current
    time and a pointer to an existing gist is kept. *)
Theorem backupUserData_outcome {json : JsonLib} (encryptedData : string) (w : Browser) :
  ∃ done w',
    backupUserData encryptedData w = (Normal done, w')
    ∧ (done = false → w' = w)
    ∧ (done = true →
       localStorage w !! "gcash_backup_enabled" = Some "true"
       ∧ truthy (localStorage w !! "gcash_github_token") = true
       ∧ localStorage w' !! "gcash_last_backup" = Some (clock w)
       ∧ ∀ gistId, localStorage w !! "gcash_backup_gist_id" = Some gistId → gistId ≠ "" →
                   localStorage w' !! "gcash_backup_gist_id" = Some gistId).
Proof.
  unfold backupUserData. js_unfold. cbn beta iota.
  destruct (bool_decide (localStorage w !! "gcash_backup_enabled" = Some "true")) eqn:Hon;
    cbn [negb]; [| by exists false, w].
  apply bool_decide_eq_true in Hon.
  destruct (localStorage w !! "gcash_github_token") as [[|c1 token]|] eqn:Htoken;
    cbn beta iota delta [if_falsy JsString.is_empty];
    [by exists false, w | | by exists false, w].
  destruct (localStorage w !! "gcash_current_user") as [email|] eqn:Huser; cbn beta iota;
    [| by exists false, w].
  destruct (localStorage w !! "gcash_backup_gist_id") as [[|c2 gistId]|] eqn:Hgist;
    cbn beta iota delta [if_falsy JsString.is_empty].
  - match goal with |- context [network w ?r] => destruct (network w r) as [|status id] end;
      simpl; [by exists false, w |].
    destruct (response_ok status) eqn:Hok; simpl; rewrite ?Hok; simpl;
      [| by exists false, w].
    destruct id as [id|]; simpl; rewrite ?Hok; simpl; [| by exists false, w].
    eexists true, _. split; [reflexivity |].
    split; [done |]. intros _. split_and!; [done | done | apply lookup_insert_eq |].
    by intros gistId' [= <-].
  - match goal with |- context [network w ?r] => destruct (network w r) as [|status id] end;
      simpl; [by exists false, w |].
    destruct (response_ok status) eqn:Hok; simpl; [| by exists false, w].
    eexists true, _. split; [reflexivity |].
    split; [done |]. intros _. split_and!; [done | done | apply lookup_insert_eq |].
    intros gistId' [= <-] _. simpl. by rewrite lookup_insert_ne.
  - match goal with |- context [network w ?r] => destruct (network w r) as [|status id] end;
      simpl; [by exists false, w |].
    destruct (response_ok status) eqn:Hok; simpl; rewrite ?Hok; simpl;
      [| by exists false, w].
    destruct id as [id|]; simpl; rewrite ?Hok; simpl; [| by exists false, w].
    eexists true, _. split; [reflexivity |].
    split; [done |]. intros _. split_and!; [done | done | apply lookup_insert_eq |].
    by intros gistId'.
Qed.


Section MirrorFacts.
Context {json : JsonLib} {crypto : CryptoLib} {gists : GistApi}.

Lemma fetch_accepted w r :
  accepted w r = true →
  ∃ status id, network w r = Response status id ∧ response_ok status = true.
Proof.
  unfold accepted. destruct (network w r) as [|status id]; [done |].
  intros Hok. by exists status, id.
Qed.

Lemma fetch_refused w r :
  accepted w r = false →
  network w r = NetworkError
  ∨ ∃ status id, network w r = Response status id ∧ response_ok status = false.
Proof.
  unfold accepted. destruct (network w r) as [|status id]; [by left |].
  intros Hok. right. by exists status, id.
Qed.

End MirrorFacts.

(** X14. [configureGithubBackup] stores the token and enables backups
    exactly when the remote end accepts the token; a token that is turned
    down, or a network failure, leaves the browser as it was, a token
    stored before included. *)
Theorem configureGithubBackup_outcome (githubToken : string) (w : Browser) :
  configureGithubBackup githubToken w
  = if accepted w (configureGithubBackup_request githubToken)
    then (Normal true,
          with_localStorage
            (λ m, <["gcash_backup_enabled" := "true"]> (<["gcash_github_token" := githubToken]> m))
            w)
    else (Normal false, w).
Proof.
  unfold configureGithubBackup, accepted. js_unfold. cbn beta iota.
  destruct (network w (configureGithubBackup_request githubToken)) as [|status id];
    simpl; [done |].
  by destruct (response_ok status).
Qed.

(** X15. [restoreFromBackup] only reads: it never throws and never changes
    the browser (the restored record is returned, not stored), and it
    returns [null] when no token or no gist pointer is stored and when the
    remote end turns the request down. *)
Theorem restoreFromBackup_reads_only
    {json : JsonLib} {crypto : CryptoLib} {gists : GistApi} (password : string) (w : Browser) :
  ∃ userData,
    restoreFromBackup password w = (Normal userData, w)
    ∧ (truthy (localStorage w !! "gcash_github_token") = false → userData = JNull)
    ∧ (truthy (localStorage w !! "gcash_backup_gist_id") = false → userData = JNull)
    ∧ (∀ githubToken gistId,
         localStorage w !! "gcash_github_token" = Some githubToken →
         localStorage w !! "gcash_backup_gist_id" = Some gistId →
         accepted w (restoreFromBackup_request githubToken gistId) = false →
         userData = JNull).
Proof.
  unfold restoreFromBackup. js_unfold. cbn beta iota.
  destruct (localStorage w !! "gcash_github_token") as [[|c1 token]|] eqn:Htoken;
    cbn beta iota delta [if_falsy JsString.is_empty];
    [by exists JNull | | by exists JNull].
  destruct (localStorage w !! "gcash_backup_gist_id") as [[|c2 gistId]|] eqn:Hgist;
    cbn beta iota delta [if_falsy JsString.is_empty];
    [by exists JNull | | by exists JNull].
  unfold accepted.
  destruct (network w (restoreFromBackup_request (String c1 token) (String c2 gistId)))
    as [|status id] eqn:Hnet; simpl; [by exists JNull |].
  destruct (response_ok status) eqn:Hok; simpl; [| by exists JNull].
  assert (∀ v, ∃ userData : JsValue,
             (Normal v, w) = (Normal userData, w)
             ∧ (true = false → userData = JNull)
             ∧ (true = false → userData = JNull)
             ∧ (∀ githubToken gistId0 : string,
                  Some (String c1 token) = Some githubToken →
                  Some (String c2 gistId) = Some gistId0 →
                  match network w (restoreFromBackup_request githubToken gistId0) with
                  | NetworkError => false
                  | Response status0 _ => response_ok status0
                  end = false →
                  userData = JNull)) as Hdone.
  { intros v. exists v. split_and!; [done..|].
    intros ? ? [= <-] [= <-]. rewrite Hnet, Hok. done. }
  destruct (response_json _) as [gistData|?]; simpl; [| apply Hdone].
  destruct (get_property "files" gistData) as [gistFiles|?]; simpl; [| apply Hdone].
  destruct (Object_values gistFiles) as [[|file files]|?]; simpl; [apply Hdone | | apply Hdone].
  destruct (get_property "content" file) as [encryptedData|?]; simpl; [| apply Hdone].
  destruct (decryptData_value encryptedData password) as [userData|?]; simpl; apply Hdone.
Qed.

(** X16. Backup and restore compose: when the gist that the remote end
    returns holds, as the content of its first file, a blob that
    [encryptData] made of a record under a password, [restoreFromBackup]
    with that password returns the record. *)
Theorem restoreFromBackup_encryptData
    {json : JsonLib} {crypto : CryptoLib} {gists : GistApi}
    {json_laws : JsonLaws} {crypto_laws : CryptoLaws}
    (userData : JsValue) (password githubToken gistId : string) (e : Entropy)
    (gistData gistFiles file : JsValue) (files : list JsValue) (w : Browser) :
  localStorage w !! "gcash_github_token" = Some githubToken → githubToken ≠ "" →
  localStorage w !! "gcash_backup_gist_id" = Some gistId → gistId ≠ "" →
  accepted w (restoreFromBackup_request githubToken gistId) = true →
  response_json (restoreFromBackup_request githubToken gistId) = Normal gistData →
  get_property "files" gistData = Normal (Some gistFiles) →
  Object_values (Some gistFiles) = Normal (file :: files) →
  get_property "content" file = Normal (Some (JStr (encryptData userData password e).1)) →
  typeof_object userData = true →
  JSON_serializable userData →
  restoreFromBackup password w = (Normal userData, w).
Proof.
  intros Htoken Hne1 Hgist Hne2 Hok Hjson Hfiles Hvalues Hcontent Hobj Hser.
  unfold restoreFromBackup. js_unfold. cbn beta iota.
  rewrite Htoken, if_falsy_truthy by done. cbn beta iota.
  rewrite Hgist, if_falsy_truthy by done. cbn beta iota.
  destruct (fetch_accepted _ _ Hok) as (status & id & -> & Hstatus). cbn [fst snd].
  rewrite Hstatus, Hjson. cbn beta iota delta [negb]. rewrite Hfiles. cbn beta iota.
  rewrite Hvalues. cbn beta iota. rewrite Hcontent. cbn beta iota delta [decryptData_value].
  by rewrite decryptData_same_key_object.
Qed.

(** ** Logging in *)

Section LoginFacts.
Context {json : JsonLib} {crypto : CryptoLib} {cookie_lib : CookieLib}.

Lemma handleLogin_succeeds form expires w blob userData :
  isValidEmail (login_email form) = true →
  login_password form ≠ "" →
  localStorage w !! ("gcash_user_" +:+ JsString.toLowerCase (login_email form)) = Some blob →
  blob ≠ "" →
  decryptData blob (login_password form) = Normal userData →
  handleLogin form expires w = (Normal tt, logged_in form expires w).
Proof.
  intros Hvalid Hpassword Hblob Hne Hdecrypt.
  unfold handleLogin, logged_in. rewrite Hvalid. cbn [negb].
  destruct (login_password form) as [|c password] eqn:Hp; [done |].
  cbn [JsString.is_empty]. js_unfold. cbn beta iota.
  rewrite Hblob, if_falsy_truthy by done. cbn beta iota.
  rewrite Hdecrypt. cbn beta iota.
  destruct (login_remember form); [| done].
  unfold document_cookie_assign, effect. by destruct (is_plain_cookie_value _).
Qed.

Lemma logged_in_localStorage form expires w :
  localStorage (logged_in form expires w)
  = <["gcash_current_user" := JsString.toLowerCase (login_email form)]>
      (<["gcash_logged_in" := "true"]> (localStorage w)).
Proof.
  unfold logged_in. destruct (login_remember form); [| done].
  unfold document_cookie_assign, effect. by destruct (is_plain_cookie_value _).
Qed.

Lemma logged_in_sessionStorage form expires w :
  sessionStorage (logged_in form expires w) = sessionStorage w.
Proof.
  unfold logged_in. destruct (login_remember form); [| done].
  unfold document_cookie_assign, effect. by destruct (is_plain_cookie_value _).
Qed.

End LoginFacts.

(** X17. A login that fails says the same thing whether the email is
    unknown or the password does not decrypt the record, and it leaves the
    browser as it was apart from that one notification. *)
Theorem handleLogin_rejects_alike
    {json : JsonLib} {crypto : CryptoLib} {cookie_lib : CookieLib}
    (form : LoginForm) (expires : string) (w : Browser) :
  isValidEmail (login_email form) = true →
  login_password form ≠ "" →
  (truthy (localStorage w !! ("gcash_user_" +:+ JsString.toLowerCase (login_email form)))
   = false
   ∨ ∃ blob message,
       localStorage w !! ("gcash_user_" +:+ JsString.toLowerCase (login_email form))
       = Some blob
       ∧ decryptData blob (login_password form) = Throw message) →
  handleLogin form expires w
  = (Normal tt, with_notifications (cons ("Email or password is incorrect", "error")) w).
Proof.
  intros Hvalid Hpassword Hcase.
  unfold handleLogin. rewrite Hvalid. cbn [negb].
  destruct (login_password form) as [|c password] eqn:Hp; [done |].
  cbn [JsString.is_empty]. js_unfold. cbn beta iota.
  destruct Hcase as [Hnone | (blob & message & Hblob & Hdecrypt)].
  - by rewrite if_falsy_falsy.
  - rewrite Hblob. destruct blob as [|c' blob]; [done |].
    cbn beta iota delta [if_falsy JsString.is_empty]. by rewrite Hdecrypt.
Qed.

(** X18. A login that succeeds marks the user as logged in but does not
    cache the password as the session key: session storage is left as it
    was, so unless a key was cached before, [loadUserData] and
    [getCurrentUserData] return [null] for the user who has just logged in
    and [saveUserData] returns [false]. *)
Theorem handleLogin_no_session_key
    {json : JsonLib} {crypto : CryptoLib} {cookie_lib : CookieLib}
    (form : LoginForm) (expires blob : string) (userData data : JsValue) (w : Browser) :
  isValidEmail (login_email form) = true →
  login_password form ≠ "" →
  localStorage w !! ("gcash_user_" +:+ JsString.toLowerCase (login_email form)) = Some blob →
  blob ≠ "" →
  decryptData blob (login_password form) = Normal userData →
  sessionStorage w !! "gcash_session_key" = None →
  let w' := (handleLogin form expires w).2 in
  localStorage w' !! "gcash_logged_in" = Some "true"
  ∧ localStorage w' !! "gcash_current_user" = Some (JsString.toLowerCase (login_email form))
  ∧ sessionStorage w' = sessionStorage w
  ∧ (loadUserData w').1 = Normal JNull
  ∧ (getCurrentUserData w').1 = Normal JNull
  ∧ (saveUserData data w').1 = Normal false.
Proof.
  intros Hvalid Hpassword Hblob Hne Hdecrypt Hkey w'. subst w'.
  erewrite handleLogin_succeeds by done. cbn [snd].
  pose proof (logged_in_localStorage form expires w) as Hlocal.
  pose proof (logged_in_sessionStorage form expires w) as Hsession.
  assert (sessionStorage (logged_in form expires w) !! "gcash_session_key" = None) as Hkey'
    by by rewrite Hsession.
  split_and!.
  - rewrite Hlocal. rewrite lookup_insert_ne by done. apply lookup_insert_eq.
  - rewrite Hlocal. apply lookup_insert_eq.
  - done.
  - destruct (loadUserData_reads_only' (logged_in form expires w)) as (v & -> & _ & _ & Hnull).
    cbn [fst]. f_equal. apply Hnull. by rewrite Hkey'.
  - unfold getCurrentUserData. js_unfold. cbn beta iota.
    destruct (bool_decide _); cbn [negb]; [| done].
    destruct (localStorage _ !! "gcash_current_user") as [[|c1 s1]|];
      cbn beta iota delta [if_falsy JsString.is_empty]; [done | | done].
    destruct (localStorage (logged_in form expires w) !! (_ +:+ _)) as [[|c2 s2]|];
      cbn beta iota delta [if_falsy JsString.is_empty]; [done | | done].
    by rewrite Hkey'.
  - rewrite saveUserData_no_session; [done |]. right. by rewrite Hkey'.
Qed.

(** X19. [getCurrentUserData] is [loadUserData] behind the login flag:
    when [gcash_logged_in] is ["true"] the two return the same value, and
    otherwise [getCurrentUserData] returns [null]; neither changes the
    browser. *)
Theorem getCurrentUserData_loadUserData
    {json : JsonLib} {crypto : CryptoLib} (w : Browser) :
  getCurrentUserData w
  = if bool_decide (localStorage w !! "gcash_logged_in" = Some "true")
    then loadUserData w
    else (Normal JNull, w).
Proof.
  unfold getCurrentUserData, loadUserData. js_unfold. cbn beta iota.
  destruct (bool_decide _); cbn [negb]; [| done].
  destruct (localStorage w !! "gcash_current_user") as [[|c1 s1]|];
    cbn beta iota delta [if_falsy JsString.is_empty]; [done | | done].
  destruct (localStorage w !! (_ +:+ _)) as [[|c2 s2]|];
    cbn beta iota delta [if_falsy JsString.is_empty]; [done | | done].
  destruct (sessionStorage w !! "gcash_session_key") as [[|c3 s3]|];
    cbn beta iota delta [if_falsy JsString.is_empty]; [done | | done].
  by destruct (decryptData _ _).
Qed.

(** ** Import and export *)

Section ImportFacts.
Context {json : JsonLib} {crypto : CryptoLib}.

Lemma importUserData_accepts content userData email password w :
  JSON_parse content = Some userData →
  get_property "email" userData = Normal (Some (JStr email)) →
  email ≠ "" →
  (∃ fullname, get_property "fullname" userData = Normal fullname
               ∧ js_truthy_opt fullname = true) →
  importUserData (Normal content) password w
  = (Normal true,
     with_localStorage
       (<["gcash_user_" +:+ JsString.toLowerCase email
          := (encryptData userData password (entropy w)).1]>)
       (with_entropy (encryptData userData password (entropy w)).2 w)).
Proof.
  intros Hparse Hemail Hne (fullname & Hfullname & Htruthy).
  unfold importUserData. js_unfold. cbn beta iota. rewrite Hparse, Hemail.
  destruct email as [|c email]; [done |].
  cbn beta iota delta [js_truthy_opt js_truthy JsString.is_empty negb orb].
  rewrite Hfullname. cbn beta iota. rewrite Htruthy. cbn beta iota delta [negb].
  unfold lift_entropy. by destruct (encryptData userData password (entropy w)).
Qed.

Lemma get_property_email_object userData email :
  get_property "email" userData = Normal (Some email) → typeof_object userData = true.
Proof. by destruct userData. Qed.

End ImportFacts.

(** X20. [importUserData] never throws, touches neither session storage
    nor the cookies, and changes local storage only when it returns [true]:
    the file was then read and parsed to an object with a non-empty string
    [email], and the one key written is [gcash_user_] followed by that email
    in lower case, holding the object encrypted under the given password,
    whether or not a record was stored there before. *)
Theorem importUserData_outcome
    {json : JsonLib} {crypto : CryptoLib}
    (file : Completion string) (password : string) (w : Browser) :
  ∃ done w',
    importUserData file password w = (Normal done, w')
    ∧ sessionStorage w' = sessionStorage w
    ∧ cookies w' = cookies w
    ∧ (done = false → localStorage w' = localStorage w)
    ∧ (done = true →
       ∃ content userData email,
         file = Normal content
         ∧ JSON_parse content = Some userData
         ∧ get_property "email" userData = Normal (Some (JStr email))
         ∧ email ≠ ""
         ∧ localStorage w'
           = <["gcash_user_" +:+ JsString.toLowerCase email
               := (encryptData userData password (entropy w)).1]> (localStorage w)).
Proof.
  unfold importUserData. js_unfold. cbn beta iota.
  destruct file as [content | message]; cbn beta iota; [| by exists false, w].
  destruct (JSON_parse content) as [userData|] eqn:Hparse; [| by exists false, w].
  destruct (get_property "email" userData) as [email|?] eqn:Hemail; cbn beta iota;
    [| by exists false, w].
  destruct (js_truthy_opt email) eqn:Htruthy; cbn beta iota delta [negb orb];
    [| by exists false, w].
  destruct (get_property "fullname" userData) as [fullname|?]; cbn beta iota;
    [| by exists false, w].
  destruct (js_truthy_opt fullname); cbn beta iota delta [negb]; [| by exists false, w].
  unfold lift_entropy.
  destruct (encryptData userData password (entropy w)) as [blob e'] eqn:Hblob. cbn beta iota.
  destruct email as [[| | |email| |]|]; cbn beta iota; try by exists false, (with_entropy e' w).
  eexists true, _. split; [reflexivity |]. split_and!; [done | done | done |].
  intros _. exists content, userData, email.
  split_and!; [done | done | done | by destruct email | by rewrite Hblob].
Qed.

(** X21. An import is a way in without the old password: after
    [importUserData] of a file that holds a record with a valid email, given
    any password, [handleLogin] with that email (in any letter case) and that
    password succeeds, whatever was stored for the email before. No login
    and no session key is needed for the import. *)
Theorem handleLogin_after_import
    {json : JsonLib} {crypto : CryptoLib} {cookie_lib : CookieLib}
    {json_laws : JsonLaws} {crypto_laws : CryptoLaws}
    (content : string) (userData : JsValue) (email : string) (fullname : option JsValue)
    (form : LoginForm) (expires : string) (w : Browser) :
  JSON_parse content = Some userData →
  get_property "email" userData = Normal (Some (JStr email)) →
  get_property "fullname" userData = Normal fullname →
  js_truthy_opt fullname = true →
  JSON_serializable userData →
  isValidEmail email = true →
  JsString.toLowerCase (login_email form) = JsString.toLowerCase email →
  login_password form ≠ "" →
  let w1 := (importUserData (Normal content) (login_password form) w).2 in
  let w2 := (handleLogin form expires w1).2 in
  (importUserData (Normal content) (login_password form) w).1 = Normal true
  ∧ localStorage w2 !! "gcash_logged_in" = Some "true"
  ∧ localStorage w2 !! "gcash_current_user" = Some (JsString.toLowerCase email)
  ∧ head (notifications w2) = Some ("Login successful! Redirecting...", "success").
Proof.
  intros Hparse Hemail Hfullname Htruthy Hser Hvalid Hlower Hpassword w1 w2.
  assert (email ≠ "") as Hne by (by intros ->).
  subst w2 w1. rewrite (importUserData_accepts content userData email) by eauto.
  cbn [fst snd]. split; [done |].
  erewrite handleLogin_succeeds.
  - cbn [snd]. rewrite logged_in_localStorage, Hlower. split_and!.
    + rewrite lookup_insert_ne by done. apply lookup_insert_eq.
    + apply lookup_insert_eq.
    + unfold logged_in. done.
  - by rewrite <- match_email_lower, Hlower, match_email_lower.
  - done.
  - rewrite Hlower. simpl. apply lookup_insert_eq.
  - apply encryptData_nonempty.
  - apply decryptData_same_key_object; [done | | done].
    by eapply get_property_email_object.
Qed.

(** ** Signing up, logging out and logging in again *)

Section AccountFacts.
Context {json : JsonLib} {crypto : CryptoLib}.

Lemma handleLogout_localStorage w :
  localStorage (handleLogout w).2
  = delete "gcash_current_user" (delete "gcash_logged_in" (localStorage w)).
Proof. done. Qed.

Lemma valid_password_nonempty password :
  isValid (validatePasswordStrength password) = true → password ≠ "".
Proof. by intros Hvalid ->. Qed.

Lemma signup_form_valid_fields form :
  signup_form_valid form = true →
  isValidEmail (form_email form) = true ∧ form_password form ≠ "".
Proof.
  unfold signup_form_valid. rewrite !andb_true_iff.
  intros [[[[_ Hemail] Hpassword] _] _]. split; [done |].
  by apply valid_password_nonempty.
Qed.

End AccountFacts.

(** X22. Signing up, logging out and logging in again works: after
    [handleSignup] with a valid form for an email that had no record and
    [handleLogout], which removes both login keys, [handleLogin] with the
    same email in any letter case and the same password logs the user in
    again under the lower-cased email. *)
Theorem handleLogin_after_signup
    {json : JsonLib} {crypto : CryptoLib} {cookie_lib : CookieLib}
    {json_laws : JsonLaws} {crypto_laws : CryptoLaws}
    (signup : SignupForm) (login : LoginForm) (expires : string) (w : Browser) :
  signup_form_valid signup = true →
  truthy (localStorage w !! ("gcash_user_" +:+ JsString.toLowerCase (form_email signup)))
  = false →
  JSON_serializable
    (handleSignup_userData (form_fullname signup) (form_email signup) (clock w)) →
  JsString.toLowerCase (login_email login) = JsString.toLowerCase (form_email signup) →
  login_password login = form_password signup →
  let w1 := (handleSignup signup w).2 in
  let w2 := (handleLogout w1).2 in
  let w3 := (handleLogin login expires w2).2 in
  localStorage w1 !! "gcash_logged_in" = Some "true"
  ∧ localStorage w2 !! "gcash_logged_in" = None
  ∧ localStorage w2 !! "gcash_current_user" = None
  ∧ localStorage w3 !! "gcash_logged_in" = Some "true"
  ∧ localStorage w3 !! "gcash_current_user"
    = Some (JsString.toLowerCase (form_email signup))
  ∧ head (notifications w3) = Some ("Login successful! Redirecting...", "success").
Proof.
  intros Hform Hfree Hser Hlower Hpassword w1 w2 w3.
  destruct (signup_form_valid_fields signup Hform) as [Hvalid Hne].
  assert (localStorage w1
          = <["gcash_current_user" := JsString.toLowerCase (form_email signup)]>
              (<["gcash_logged_in" := "true"]>
                 (<["gcash_user_" +:+ JsString.toLowerCase (form_email signup)
                    := (encryptData
                          (handleSignup_userData (form_fullname signup) (form_email signup)
                             (clock w))
                          (form_password signup) (entropy w)).1]> (localStorage w))))
    as Hw1.
  { subst w1. rewrite handleSignup_valid, Hfree by done. done. }
  assert (handleLogin login expires w2 = (Normal tt, logged_in login expires w2)) as Hlogin.
  { eapply handleLogin_succeeds.
    - by rewrite <- match_email_lower, Hlower, match_email_lower.
    - by rewrite Hpassword.
    - subst w2. rewrite handleLogout_localStorage, Hw1, Hlower.
      rewrite lookup_delete_ne by (symmetry; apply user_key_neq_current_user).
      rewrite lookup_delete_ne by (symmetry; apply user_key_neq_logged_in).
      rewrite lookup_insert_ne by (symmetry; apply user_key_neq_current_user).
      rewrite lookup_insert_ne by (symmetry; apply user_key_neq_logged_in).
      apply lookup_insert_eq.
    - apply encryptData_nonempty.
    - rewrite Hpassword. by apply decryptData_same_key_object. }
  split_and!.
  - rewrite Hw1. rewrite lookup_insert_ne by done. apply lookup_insert_eq.
  - subst w2. rewrite handleLogout_localStorage.
    rewrite lookup_delete_ne by done. apply lookup_delete_eq.
  - subst w2. rewrite handleLogout_localStorage. apply lookup_delete_eq.
  - subst w3. rewrite Hlogin. cbn [snd]. rewrite logged_in_localStorage.
    rewrite lookup_insert_ne by done. apply lookup_insert_eq.
  - subst w3. rewrite Hlogin. cbn [snd]. rewrite logged_in_localStorage, Hlower.
    apply lookup_insert_eq.
  - subst w3. by rewrite Hlogin.
Qed.

(** X23. A signup form that fails one of the checks on the form (full name,
    email, password strength, confirmation, terms) changes nothing: the
    handler shows one error notification and stores no record, sets no login
    key and draws no randomness. *)
Theorem handleSignup_invalid_form
    {json : JsonLib} {crypto : CryptoLib} (form : SignupForm) (w : Browser) :
  signup_form_valid form = false →
  ∃ message,
    handleSignup form w = (Normal tt, with_notifications (cons (message, "error")) w).
Proof.
  unfold signup_form_valid, handleSignup. intros Hinvalid.
  destruct (JsString.is_empty (form_fullname form)
            || bool_decide (String.length (JsString.trim (form_fullname form)) < 2));
    [by eexists |].
  destruct (isValidEmail (form_email form)); cbn [negb]; [| by eexists].
  destruct (isValid (validatePasswordStrength (form_password form))); cbn [negb];
    [| by eexists].
  destruct (String.eqb (form_password form) (form_confirm_password form)); cbn [negb];
    [| by eexists].
  destruct (form_terms form); cbn [negb]; [done | by eexists].
Qed.

(** X24. An export is the record as plain JSON text, not an encrypted blob,
    and it can be imported again: for a loaded record with a non-empty
    [email] and a [fullname], [exportUserData] yields the serialization of
    the record without changing the browser, and [importUserData] of that
    text under any password stores a blob that decrypts to the record under
    that password. *)
Theorem importUserData_exportUserData
    {json : JsonLib} {crypto : CryptoLib}
    {json_laws : JsonLaws} {crypto_laws : CryptoLaws}
    (userData : JsValue) (email password : string) (fullname : option JsValue)
    (w : Browser) :
  (loadUserData w).1 = Normal userData →
  get_property "email" userData = Normal (Some (JStr email)) →
  email ≠ "" →
  get_property "fullname" userData = Normal fullname →
  js_truthy_opt fullname = true →
  JSON_serializable userData →
  exportUserData w = (Normal (Some (JSON_stringify userData)), w)
  ∧ ∃ w' blob,
      importUserData (Normal (JSON_stringify userData)) password w = (Normal true, w')
      ∧ localStorage w' !! ("gcash_user_" +:+ JsString.toLowerCase email) = Some blob
      ∧ decryptData blob password = Normal userData.
Proof.
  intros Hload Hemail Hne Hfullname Htruthy Hser.
  pose proof (get_property_email_object _ _ Hemail) as Hobj.
  split.
  - unfold exportUserData. js_unfold. cbn beta iota.
    destruct (loadUserData_reads_only' w) as (v & Hv & _).
    fold loadUserData. rewrite Hv in Hload |- *. cbn [fst] in Hload.
    injection Hload as ->. cbn beta iota. by destruct userData.
  - eexists _, _. split_and!.
    + apply importUserData_accepts with (email := email); eauto.
    + simpl. apply lookup_insert_eq.
    + by apply decryptData_same_key_object.
Qed.

(** ** The cookie jar *)

Section JarFacts.

Local Abbreviation cookie_text := (λ c : string * string, c.1 +:+ "=" +:+ c.2).

Lemma trimStart_length s : String.length (JsString.trimStart s) ≤ String.length s.
Proof.
  induction s as [|c s IH]; [done |]. cbn [JsString.trimStart].
  destruct (JsString.is_white_space c); simpl in *; lia.
Qed.

Lemma trimStart_fixed c s :
  JsString.trimStart (String c s) = String c s → JsString.is_white_space c = false.
Proof.
  cbn [JsString.trimStart]. destruct (JsString.is_white_space c); [| done].
  intros Heq. pose proof (trimStart_length s) as Hlen. rewrite Heq in Hlen.
  simpl in Hlen. lia.
Qed.

Lemma trim_cookie_text c : cookie_ok c → JsString.trim (cookie_text c) = cookie_text c.
Proof.
  intros (Hne & _ & _ & _ & Hstart & Hend). unfold JsString.trim.
  destruct c as [[|a name] value]; [done |]. cbn [fst snd] in *.
  apply trimStart_fixed in Hstart.
  replace (JsString.trimStart (String a name +:+ "=" +:+ value))
    with (String a name +:+ "=" +:+ value); [done |].
  simpl. by rewrite Hstart.
Qed.

Lemma trim_cookie_text_space c :
  cookie_ok c → JsString.trim (" " +:+ cookie_text c) = cookie_text c.
Proof. intros Hok. rewrite <- (trim_cookie_text c Hok) at 2. done. Qed.

Lemma prefix_app p s : String.prefix p s = true → ∃ rest, s = p +:+ rest.
Proof.
  revert s. induction p as [|a p IH]; intros s; [by exists s |].
  destruct s as [|b s]; [done |]. cbn [String.prefix].
  destruct (ascii_dec a b) as [-> |]; [| done].
  intros Hp. destruct (IH s Hp) as [rest ->]. by exists rest.
Qed.

Lemma startsWith_cookie_text c :
  JsString.count "=" c.1 = 0 →
  JsString.startsWith "gcash_remember=" (cookie_text c) = String.eqb c.1 "gcash_remember".
Proof.
  destruct c as [name value]. cbn [fst snd]. intros Hname.
  destruct (String.eqb_spec name "gcash_remember") as [-> | Hother];
    [by destruct value |].
  apply not_true_is_false. intros Hprefix. apply Hother.
  apply prefix_app in Hprefix as [rest Hrest].
  change (name +:+ "=" +:+ value) with (name +:+ String "=" value) in Hrest.
  change ("gcash_remember=" +:+ rest) with ("gcash_remember" +:+ String "=" rest) in Hrest.
  apply (f_equal (JsString.split "=")) in Hrest.
  rewrite !JsStringFacts.split_first in Hrest by done. by injection Hrest.
Qed.

Lemma split_cookie_texts (jar : list (string * string)) :
  Forall cookie_ok jar →
  Forall2 (λ part c, JsString.trim part = cookie_text c)
    (JsString.split ";" (String.concat "; " (cookie_text <$> jar)))
    jar
  ∨ jar = [].
Proof.
  intros Hjar.
  assert (∀ c, cookie_ok c → JsString.count ";" (cookie_text c) = 0) as Hcount.
  { intros c (_ & _ & Hname & Hvalue & _). rewrite !JsStringFacts.count_app, Hname, Hvalue.
    done. }
  destruct jar as [|c jar]; [by right |]. left.
  revert c Hjar. induction jar as [|c' jar IH]; intros c Hjar.
  - apply Forall_cons in Hjar as [Hc _]. cbn [fmap list_fmap String.concat].
    rewrite JsStringFacts.split_absent by by apply Hcount.
    constructor; [by apply trim_cookie_text | constructor].
  - apply Forall_cons in Hjar as [Hc Hjar]. specialize (IH c' Hjar).
    change (String.concat "; " (cookie_text <$> c :: c' :: jar))
      with (cookie_text c
            +:+ String ";" (String " " (String.concat "; " (cookie_text <$> c' :: jar)))).
    remember (String.concat "; " (cookie_text <$> c' :: jar)) as text eqn:Htext.
    rewrite JsStringFacts.split_first by by apply Hcount.
    constructor; [by apply trim_cookie_text |].
    change (JsString.split ";" (String " " text))
      with (match JsString.split ";" text with
            | [] => [String " " EmptyString]
            | part :: parts => String " " part :: parts
            end).
    inversion IH as [|part c0 parts jar0 Htrim Hrest Hparts]; subst c0 jar0.
    constructor; [| done].
    rewrite <- Htrim. done.
Qed.

Lemma checkRememberMeCookie_loop_jar parts jar w :
  Forall2 (λ part c, JsString.trim part = cookie_text c) parts jar →
  Forall cookie_ok jar →
  checkRememberMeCookie_loop parts w
  = match List.find (remembered_cookie w) jar with
    | Some c =>
        (Normal true,
         with_localStorage
           (λ m, <["gcash_current_user" := c.2]> (<["gcash_logged_in" := "true"]> m)) w)
    | None => (Normal false, w)
    end.
Proof.
  induction 1 as [|part c parts jar Htrim _ IH]; intros Hjar; [done |].
  apply Forall_cons in Hjar as [Hc Hjar]. specialize (IH Hjar).
  cbn [checkRememberMeCookie_loop List.find]. rewrite Htrim.
  rewrite startsWith_cookie_text by apply Hc. unfold remembered_cookie.
  destruct (String.eqb_spec c.1 "gcash_remember") as [Hname | _]; [| done].
  cbn [andb]. rewrite Hname.
  change ("gcash_remember" +:+ "=" +:+ c.2) with ("gcash_remember=" +:+ c.2).
  destruct (remember_cookie_email c.2) as [_ Hsub]. cbn zeta in Hsub. rewrite Hsub.
  js_unfold. cbn beta iota.
  destruct (JsString.is_empty c.2); cbn [negb andb]; [done |].
  cbn beta iota. by destruct (truthy _).
Qed.

Lemma checkRememberMeCookie_jar w :
  Forall cookie_ok (cookies w) →
  checkRememberMeCookie w
  = match List.find (remembered_cookie w) (cookies w) with
    | Some c =>
        (Normal true,
         with_localStorage
           (λ m, <["gcash_current_user" := c.2]> (<["gcash_logged_in" := "true"]> m)) w)
    | None => (Normal false, w)
    end.
Proof.
  intros Hjar. unfold checkRememberMeCookie, document_cookie. js_unfold. cbn beta iota.
  destruct (split_cookie_texts (cookies w) Hjar) as [Hparts | ->].
  - by apply checkRememberMeCookie_loop_jar.
  - done.
Qed.

End JarFacts.

(** X25. [checkRememberMeCookie] on the cookie jar: it goes by the first
    cookie that is named [gcash_remember] and whose value is not empty and
    names a stored record, logs that email in and returns [true]; when the
    jar holds no such cookie it returns [false] and changes nothing. *)
Theorem checkRememberMeCookie_first_remembered (w : Browser) :
  Forall cookie_ok (cookies w) →
  checkRememberMeCookie w
  = match List.find (remembered_cookie w) (cookies w) with
    | Some c =>
        (Normal true,
         with_localStorage
           (λ m, <["gcash_current_user" := c.2]> (<["gcash_logged_in" := "true"]> m)) w)
    | None => (Normal false, w)
    end.
Proof. apply checkRememberMeCookie_jar. Qed.

Section RememberFacts.
Context {json : JsonLib} {crypto : CryptoLib} {cookie_lib : CookieLib}.

Lemma Forall_cookie_ok_filter (P : string * string → Prop) `{∀ c, Decision (P c)} jar :
  Forall cookie_ok jar → Forall cookie_ok (filter P jar).
Proof.
  induction 1 as [|c jar Hc _ IH]; [constructor |].
  rewrite filter_cons. destruct (decide (P c)); [by constructor | done].
Qed.

Lemma find_remembered_expired w jar :
  List.find (remembered_cookie w) (filter (λ c : string * string, c.1 ≠ "gcash_remember") jar)
  = None.
Proof.
  induction jar as [|c jar IH]; [done |].
  rewrite filter_cons. destruct (decide (c.1 ≠ "gcash_remember")) as [Hname | _]; [| done].
  cbn [List.find]. unfold remembered_cookie at 1.
  by destruct (String.eqb_spec c.1 "gcash_remember").
Qed.









End RememberFacts.

(** X26. A logout switches the automatic login off: after [handleLogout]
    no cookie of the jar is named [gcash_remember], so
    [checkRememberMeCookie] returns [false] and changes nothing. *)
Theorem checkRememberMeCookie_after_logout (w : Browser) :
  Forall cookie_ok (cookies w) →
  let w' := (handleLogout w).2 in
  checkRememberMeCookie w' = (Normal false, w').
Proof.
  intros Hjar w'.
  rewrite checkRememberMeCookie_jar by by apply Forall_cookie_ok_filter.
  subst w'. unfold handleLogout. js_unfold. unfold document_cookie_expire, effect. simpl.
  by rewrite find_remembered_expired.
Qed.


(** X28. After a logout the page guard sends the dashboard to the login
    page and leaves every other page alone: [checkAuthStatus] after
    [handleLogout] redirects to [login.html] exactly when the path of the
    page contains [dashboard.html]. *)
Theorem checkAuthStatus_after_logout (currentPage : string) (w : Browser) :
  let w' := (handleLogout w).2 in
  checkAuthStatus currentPage w'
  = (Normal tt,
     if JsStringMore.includes "dashboard.html" currentPage
     then with_location (Some "login.html") w'
     else w').
Proof.
  intros w'. unfold checkAuthStatus. js_unfold. cbn beta iota.
  assert (localStorage w' !! "gcash_logged_in" = None) as ->.
  { subst w'. rewrite handleLogout_localStorage.
    rewrite lookup_delete_ne by done. apply lookup_delete_eq. }
  rewrite bool_decide_eq_false_2 by done. cbn [existsb]. rewrite orb_false_r.
  by destruct (JsStringMore.includes "dashboard.html" currentPage).
Qed.

(** ** The further properties on the scenarios *)

Section FurtherEvaluation.
#[local] Existing Instances Mock.json Mock.crypto MockFacts.json_laws MockFacts.crypto_laws
  Visit.gists Visit.cookie_lib.

Lemma decryptData_separator_count_witness :
  JsString.count ":" "00ff00ff" ≠ 1
  ∧ decryptData "00ff00ff" "Str0ng!Pass" = Throw "Failed to decrypt data".
Proof.
  assert (Hcount : JsString.count ":" "00ff00ff" ≠ 1) by (simpl; lia).
  split; [exact Hcount |].
  exact (decryptData_separator_count "00ff00ff" "Str0ng!Pass" Hcount).
Defined.

Lemma decryptData_empty_payload_witness :
  @CryptoLaws Mock.crypto
  ∧ decryptData
      (encryptData (JStr "") "Str0ng!Pass" (entropy Scenario.fresh_browser)).1 "Str0ng!Pass"
    = Throw "Failed to decrypt data".
Proof.
  split; [exact MockFacts.crypto_laws |].
  exact (decryptData_empty_payload "Str0ng!Pass" (entropy Scenario.fresh_browser)).
Defined.

Lemma generateRandomPassword_may_be_weak_witness :
  (N.of_nat 16 ≤ 65536)%N
  ∧ ∃ (e : Entropy) (password : string),
      (generateRandomPassword (Some 16) e).1 = Normal password
      ∧ isValid (validatePasswordStrength password) = false.
Proof.
  assert (Hn : (N.of_nat 16 ≤ 65536)%N) by lia.
  split; [exact Hn |].
  exact (generateRandomPassword_may_be_weak 16 Hn).
Defined.


Lemma loadUserData_saveUserData_witness :
  let w := Scenario.with_cached_key in
  let userData :=
    JObj [("fullname", JStr "A B"); ("email", JStr "a@b.com");
          ("accounts", JArr [JObj [("name", JStr "Cash"); ("balance", JNum 25)]])] in
  localStorage w !! "gcash_current_user" = Some "a@b.com"
  ∧ sessionStorage w !! "gcash_session_key" = Some "Str0ng!Pass"
  ∧ JSON_serializable userData
  ∧ (saveUserData userData w).1 = Normal true
  ∧ (loadUserData (saveUserData userData w).2).1 = Normal userData.
Proof.
  intros w userData.
  assert (Hemail : localStorage w !! "gcash_current_user" = Some "a@b.com") by reflexivity.
  assert (Hkey : sessionStorage w !! "gcash_session_key" = Some "Str0ng!Pass") by reflexivity.
  assert (Hser : JSON_serializable userData) by reflexivity.
  split_and!; [exact Hemail | exact Hkey | exact Hser | |];
    apply (loadUserData_saveUserData userData w "a@b.com" "Str0ng!Pass" Hemail
             ltac:(discriminate) Hkey ltac:(discriminate) eq_refl Hser).
Defined.

Lemma restoreFromBackup_encryptData_witness :
  let w := Visit.restorable in
  localStorage w !! "gcash_github_token" = Some "ghp_token"
  ∧ localStorage w !! "gcash_backup_gist_id" = Some "g1"
  ∧ accepted w (restoreFromBackup_request "ghp_token" "g1") = true
  ∧ restoreFromBackup "Str0ng!Pass" w = (Normal Scenario.signup_record, w).
Proof.
  intros w.
  assert (Htoken : localStorage w !! "gcash_github_token" = Some "ghp_token") by reflexivity.
  assert (Hgist : localStorage w !! "gcash_backup_gist_id" = Some "g1") by reflexivity.
  assert (Hok : accepted w (restoreFromBackup_request "ghp_token" "g1") = true)
    by reflexivity.
  split_and!; [exact Htoken | exact Hgist | exact Hok |].
  exact (restoreFromBackup_encryptData
           Scenario.signup_record "Str0ng!Pass" "ghp_token" "g1"
           (entropy Scenario.fresh_browser) Visit.gist
           (JObj [("a_b_com.encrypted",
                   JObj [("filename", JStr "a_b_com.encrypted");
                         ("content", JStr Scenario.signup_blob)])])
           (JObj [("filename", JStr "a_b_com.encrypted");
                  ("content", JStr Scenario.signup_blob)])
           [] w Htoken ltac:(discriminate) Hgist ltac:(discriminate) Hok
           eq_refl eq_refl eq_refl eq_refl eq_refl eq_refl).
Defined.

Lemma handleLogin_rejects_alike_witness :
  let w := Scenario.after_signup in
  isValidEmail (login_email Visit.stranger_form) = true
  ∧ truthy (localStorage w !! ("gcash_user_" +:+ "x@y.org")) = false
  ∧ handleLogin Visit.stranger_form Visit.expires w
    = (Normal tt, with_notifications (cons ("Email or password is incorrect", "error")) w).
Proof.
  intros w.
  assert (Hnone : truthy (localStorage w !! ("gcash_user_" +:+ "x@y.org")) = false)
    by reflexivity.
  split_and!; [reflexivity | exact Hnone |].
  exact (handleLogin_rejects_alike Visit.stranger_form Visit.expires w eq_refl
           ltac:(discriminate) (or_introl Hnone)).
Defined.

Lemma handleLogin_no_session_key_witness :
  let w := Visit.after_logout in
  let w' := (handleLogin Visit.login_form Visit.expires w).2 in
  localStorage w !! ("gcash_user_" +:+ "a@b.com") = Some Scenario.signup_blob
  ∧ decryptData Scenario.signup_blob "Str0ng!Pass" = Normal Scenario.signup_record
  ∧ sessionStorage w !! "gcash_session_key" = None
  ∧ localStorage w' !! "gcash_logged_in" = Some "true"
  ∧ localStorage w' !! "gcash_current_user" = Some "a@b.com"
  ∧ sessionStorage w' = sessionStorage w
  ∧ (loadUserData w').1 = Normal JNull
  ∧ (getCurrentUserData w').1 = Normal JNull
  ∧ (saveUserData Scenario.signup_record w').1 = Normal false.
Proof.
  intros w w'.
  assert (Hblob : localStorage w !! ("gcash_user_" +:+ "a@b.com") = Some Scenario.signup_blob)
    by reflexivity.
  assert (Hdecrypt : decryptData Scenario.signup_blob "Str0ng!Pass"
                     = Normal Scenario.signup_record) by reflexivity.
  assert (Hkey : sessionStorage w !! "gcash_session_key" = None) by reflexivity.
  assert (Hne : Scenario.signup_blob ≠ "") by (vm_compute; discriminate).
  split; [exact Hblob |]. split; [exact Hdecrypt |]. split; [exact Hkey |].
  exact (handleLogin_no_session_key Visit.login_form Visit.expires Scenario.signup_blob
           Scenario.signup_record Scenario.signup_record w eq_refl ltac:(discriminate)
           Hblob Hne Hdecrypt Hkey).
Defined.

Lemma handleLogin_after_import_witness :
  let w := Scenario.after_signup in
  let content := JSON_stringify Scenario.signup_record in
  let w1 := (importUserData (Normal content) "NewPass99" w).2 in
  let w2 := (handleLogin Visit.takeover_form Visit.expires w1).2 in
  @JsonLaws Mock.json
  ∧ @CryptoLaws Mock.crypto
  ∧ JSON_parse content = Some Scenario.signup_record
  ∧ localStorage w !! ("gcash_user_" +:+ "a@b.com") = Some Scenario.signup_blob
  ∧ (importUserData (Normal content) "NewPass99" w).1 = Normal true
  ∧ localStorage w2 !! "gcash_logged_in" = Some "true"
  ∧ localStorage w2 !! "gcash_current_user" = Some "a@b.com"
  ∧ head (notifications w2) = Some ("Login successful! Redirecting...", "success").
Proof.
  intros w content w1 w2.
  assert (Hparse : JSON_parse content = Some Scenario.signup_record) by reflexivity.
  split; [exact MockFacts.json_laws |]. split; [exact MockFacts.crypto_laws |].
  split; [exact Hparse |]. split; [reflexivity |].
  exact (handleLogin_after_import content Scenario.signup_record "a@b.com"
           (Some (JStr "A B")) Visit.takeover_form Visit.expires w
           Hparse eq_refl eq_refl eq_refl Hparse eq_refl eq_refl ltac:(discriminate)).
Defined.

Lemma handleLogin_after_signup_witness :
  let w := Scenario.fresh_browser in
  let w1 := (handleSignup Scenario.signup_form w).2 in
  let w2 := (handleLogout w1).2 in
  let w3 := (handleLogin Visit.login_form Visit.expires w2).2 in
  @JsonLaws Mock.json
  ∧ @CryptoLaws Mock.crypto
  ∧ signup_form_valid Scenario.signup_form = true
  ∧ JsString.toLowerCase "A@B.com" = JsString.toLowerCase "a@b.com"
  ∧ localStorage w1 !! "gcash_logged_in" = Some "true"
  ∧ localStorage w2 !! "gcash_logged_in" = None
  ∧ localStorage w2 !! "gcash_current_user" = None
  ∧ localStorage w3 !! "gcash_logged_in" = Some "true"
  ∧ localStorage w3 !! "gcash_current_user" = Some "a@b.com"
  ∧ head (notifications w3) = Some ("Login successful! Redirecting...", "success").
Proof.
  intros w w1 w2 w3.
  split; [exact MockFacts.json_laws |]. split; [exact MockFacts.crypto_laws |].
  split; [reflexivity |]. split; [reflexivity |].
  exact (handleLogin_after_signup Scenario.signup_form Visit.login_form Visit.expires w
           eq_refl eq_refl eq_refl eq_refl eq_refl).
Defined.

Lemma handleSignup_invalid_form_witness :
  let w := Scenario.fresh_browser in
  signup_form_valid Visit.mistyped_form = false
  ∧ ∃ message,
      handleSignup Visit.mistyped_form w
      = (Normal tt, with_notifications (cons (message, "error")) w).
Proof.
  intros w. split; [reflexivity |].
  exact (handleSignup_invalid_form Visit.mistyped_form w eq_refl).
Defined.

Lemma importUserData_exportUserData_witness :
  let w := Scenario.with_cached_key in
  let userData := Scenario.signup_record in
  @JsonLaws Mock.json
  ∧ @CryptoLaws Mock.crypto
  ∧ (loadUserData w).1 = Normal userData
  ∧ JSON_serializable userData
  ∧ exportUserData w = (Normal (Some (JSON_stringify userData)), w)
  ∧ ∃ w' blob,
      importUserData (Normal (JSON_stringify userData)) "NewPass99" w = (Normal true, w')
      ∧ localStorage w' !! ("gcash_user_" +:+ JsString.toLowerCase "a@b.com") = Some blob
      ∧ decryptData blob "NewPass99" = Normal userData.
Proof.
  intros w userData.
  assert (Hload : (loadUserData w).1 = Normal userData) by reflexivity.
  assert (Hser : JSON_serializable userData) by reflexivity.
  split; [exact MockFacts.json_laws |]. split; [exact MockFacts.crypto_laws |].
  split; [exact Hload |]. split; [exact Hser |].
  exact (importUserData_exportUserData userData "a@b.com" "NewPass99" (Some (JStr "A B")) w
           Hload eq_refl ltac:(discriminate) eq_refl eq_refl Hser).
Defined.

Lemma remembered_jar_ok : Forall cookie_ok (cookies Scenario.remembered).
Proof. repeat constructor; discriminate. Qed.

Lemma checkRememberMeCookie_first_remembered_witness :
  let w := Scenario.remembered in
  Forall cookie_ok (cookies w)
  ∧ List.find (remembered_cookie w) (cookies w) = Some ("gcash_remember", "a@b.com")
  ∧ checkRememberMeCookie w
    = (Normal true,
       with_localStorage
         (λ m, <["gcash_current_user" := "a@b.com"]> (<["gcash_logged_in" := "true"]> m)) w).
Proof.
  intros w. split; [exact remembered_jar_ok |]. split; [reflexivity |].
  exact (checkRememberMeCookie_first_remembered w remembered_jar_ok).
Defined.

Lemma checkRememberMeCookie_after_logout_witness :
  let w := Scenario.remembered in
  let w' := (handleLogout w).2 in
  Forall cookie_ok (cookies w)
  ∧ cookies w' = [("theme", "dark")]
  ∧ checkRememberMeCookie w' = (Normal false, w').
Proof.
  intros w w'. split; [exact remembered_jar_ok |]. split; [reflexivity |].
  exact (checkRememberMeCookie_after_logout w remembered_jar_ok).
Defined.


End FurtherEvaluation.
